(** * Midnight-Engine: the GPU vertex buffer manager

    A shallow embedding of [Source/Implementation/core/VertexBuffer.inl]:
    the attribute descriptors with their registration-time checks, the
    scoped array-buffer binding helper, and [VertexBufferImpl] with its
    constructors, re-upload, registration, bind, unbind, reset and
    destruction.  The OpenGL context the code talks to is an explicit
    state that every operation threads through; C++ exceptions are the
    [Throw] outcome of a small state-and-exception monad. *)

From Stdlib Require Import ZArith Lia.
From stdpp Require Import base gmap sets list strings.

Local Open Scope Z_scope.

(** ** Machine integers of the GL headers *)

Module GLtypes.

(** [GLuint], [GLenum]: 32 bits, unsigned.  [GLint], [GLsizei]: 32 bits,
    signed.  A conversion between them keeps the bit pattern. *)
Definition is_GLuint (z : Z) : Prop := 0 <= z < 2 ^ 32.

(** [static_cast<GLuint>(z)], and the implicit conversion of a [GLint]
    argument to a [GLuint] parameter. *)
Definition to_GLuint (z : Z) : Z := z mod 2 ^ 32.

(** What a [GLint] variable holds after the driver wrote the 32-bit
    pattern of [z] into it ([glGetIntegerv]). *)
Definition to_GLint (z : Z) : Z := (z + 2 ^ 31) mod 2 ^ 32 - 2 ^ 31.

End GLtypes.
Export GLtypes.

(** ** Tokens of the GL headers

    [Platform.hpp] pulls the system's OpenGL header in; the values are
    the ones the Khronos registry fixes for these tokens. *)

Module GLenum.

Definition GL_NO_ERROR : Z := 0.
Definition GL_POINTS : Z := 0x0000.
Definition GL_LINES : Z := 0x0001.
Definition GL_TRIANGLES : Z := 0x0004.
Definition GL_QUADS : Z := 0x0007.
Definition GL_INVALID_ENUM : Z := 0x0500.
Definition GL_FALSE : Z := 0.
Definition GL_TRUE : Z := 1.
Definition GL_OUT_OF_MEMORY : Z := 0x0505.
Definition GL_INVALID_OPERATION : Z := 0x0502.
Definition GL_BYTE : Z := 0x1400.
Definition GL_UNSIGNED_BYTE : Z := 0x1401.
Definition GL_SHORT : Z := 0x1402.
Definition GL_UNSIGNED_SHORT : Z := 0x1403.
Definition GL_INT : Z := 0x1404.
Definition GL_UNSIGNED_INT : Z := 0x1405.
Definition GL_FLOAT : Z := 0x1406.
Definition GL_2_BYTES : Z := 0x1407.
Definition GL_DOUBLE : Z := 0x140A.
Definition GL_HALF_FLOAT : Z := 0x140B.
Definition GL_FIXED : Z := 0x140C.
Definition GL_BGRA : Z := 0x80E1.
Definition GL_UNSIGNED_INT_2_10_10_10_REV : Z := 0x8368.
Definition GL_MAX_VERTEX_ATTRIBS : Z := 0x8869.
Definition GL_ARRAY_BUFFER : Z := 0x8892.
Definition GL_ARRAY_BUFFER_BINDING : Z := 0x8894.
Definition GL_STATIC_DRAW : Z := 0x88E4.
Definition GL_CURRENT_PROGRAM : Z := 0x8B8D.
Definition GL_UNSIGNED_INT_10F_11F_11F_REV : Z := 0x8C3B.
Definition GL_INT_2_10_10_10_REV : Z := 0x8D9F.

End GLenum.
Export GLenum.

(** ** Exceptions and the state-and-exception monad *)

(** Modelled from the spec: [dynamic_assert.hpp] is not part of the
    sources at hand.  [dynamic_assert(c, msg)] is taken to check [c] at
    run time and to raise a failure of its own kind when [c] is false;
    for the checks of an attribute registration the spec names that
    failure [InvalidAttributeSpec]. *)
Inductive exn : Type :=
  | BindException
  | AttributeNotFoundException
  | ResourceException
  | DynamicAssertion.

Definition InvalidAttributeSpec : exn := DynamicAssertion.

Inductive outcome (A : Type) : Type :=
  | Return (a : A)
  | Throw (e : exn).
Arguments Return {A} a.
Arguments Throw {A} e.

(** A computation over a state of type [S]: the state survives a throw,
    as the effects of a C++ function do. *)
Definition M (S A : Type) : Type := S -> outcome A * S.

Definition ret {S A} (a : A) : M S A := fun s => (Return a, s).

Definition throw {S A} (e : exn) : M S A := fun s => (Throw e, s).

Definition mbind {S A B} (m : M S A) (k : A -> M S B) : M S B :=
  fun s =>
    match m s with
    | (Return a, s') => k a s'
    | (Throw e, s') => (Throw e, s')
    end.

Definition gets {S A} (f : S -> A) : M S A := fun s => (Return (f s), s).

Definition modify {S} (f : S -> S) : M S unit := fun s => (Return tt, f s).

Declare Scope cxx_scope.
Delimit Scope cxx_scope with cxx.
Notation "x <- m ;; k" := (mbind m (fun x => k))
  (at level 100, m at next level, right associativity) : cxx_scope.
Notation "m ;;; k" := (mbind m (fun _ => k))
  (at level 100, right associativity) : cxx_scope.
Local Open Scope cxx_scope.

Definition dynamic_assert {S} (c : bool) : M S unit :=
  if c then ret tt else throw DynamicAssertion.

(** A local object with a constructor and a destructor: the destructor
    runs when the enclosing block is left, by its end or by an exception
    of the block.  An exception of the constructor leaves nothing to
    destroy. *)
Definition scoped {S H A}
    (ctor : M S H) (dtor : H -> M S unit) (body : H -> M S A) : M S A :=
  fun s =>
    match ctor s with
    | (Throw e, s1) => (Throw e, s1)
    | (Return h, s1) =>
        let '(r, s2) := body h s1 in
        let '(_, s3) := dtor h s2 in
        (r, s3)
    end.

(** A range-based [for] over a container, stopped by the first throw. *)
Fixpoint for_each {S A} (f : A -> M S unit) (l : list A) : M S unit :=
  match l with
  | [] => ret tt
  | x :: l' => f x ;;; for_each f l'
  end.

(** ** The OpenGL context

    The part of the context the vertex buffer code reads and writes,
    with the behaviour the GL reference pages give the calls it makes. *)

Module GL.

(** What a [glVertexAttrib*Pointer] call leaves in an attribute slot. *)
Inductive pointer_call : Type :=
  | FloatPointer
  | IntegerPointer
  | LongPointer.

Record attrib_array : Type := AttribArray {
  aa_call : pointer_call;
  aa_size : Z;
  aa_type : Z;
  aa_normalized : Z;
  aa_stride : Z;
  aa_offset : Z;
  aa_buffer : Z
}.

Record state : Type := State {
  (** buffer names in use; [Some n] once a data store of [n] bytes exists *)
  buffers : gmap Z (option Z);
  (** [GL_ARRAY_BUFFER_BINDING] *)
  array_buffer_binding : Z;
  (** [GL_CURRENT_PROGRAM] *)
  current_program : Z;
  (** active attributes of the linked programs: (program, name) to slot *)
  attribs : gmap (Z * string) Z;
  (** slots enabled by [glEnableVertexAttribArray] *)
  enabled : gset Z;
  (** slots configured by [glVertexAttrib*Pointer] *)
  pointers : gmap Z attrib_array;
  (** the error flag [glGetError] reads and clears *)
  error : Z;
  (** the driver: whether each coming [glBufferData] runs out of memory *)
  oom_script : list bool
}.

Definition set_buffers (f : gmap Z (option Z) -> gmap Z (option Z)) (g : state) : state :=
  State (f (buffers g)) (array_buffer_binding g) (current_program g)
        (attribs g) (enabled g) (pointers g) (error g) (oom_script g).

Definition set_array_buffer_binding (b : Z) (g : state) : state :=
  State (buffers g) b (current_program g)
        (attribs g) (enabled g) (pointers g) (error g) (oom_script g).

Definition set_enabled (f : gset Z -> gset Z) (g : state) : state :=
  State (buffers g) (array_buffer_binding g) (current_program g)
        (attribs g) (f (enabled g)) (pointers g) (error g) (oom_script g).

Definition set_pointers (f : gmap Z attrib_array -> gmap Z attrib_array) (g : state) : state :=
  State (buffers g) (array_buffer_binding g) (current_program g)
        (attribs g) (enabled g) (f (pointers g)) (error g) (oom_script g).

Definition set_error (e : Z) (g : state) : state :=
  State (buffers g) (array_buffer_binding g) (current_program g)
        (attribs g) (enabled g) (pointers g) e (oom_script g).

Definition set_oom_script (l : list bool) (g : state) : state :=
  State (buffers g) (array_buffer_binding g) (current_program g)
        (attribs g) (enabled g) (pointers g) (error g) l.

(** The flag keeps the first error until it is read. *)
Definition record_error (e : Z) (g : state) : state :=
  if error g =? GL_NO_ERROR then set_error e g else g.

(** The number of buffer names the context has handed out and not yet
    taken back. *)
Definition allocation_count (g : state) : nat := size (buffers g).

(** [glGenBuffers(1, &name)]: a name that is not in use, never zero. *)
Definition unused_name (g : state) : Z := fresh ({[0]} ∪ dom (buffers g)).

Definition glGenBuffers : M state Z :=
  fun g => let n := unused_name g in
           (Return n, set_buffers (insert n None) g).

(** [glGetIntegerv(pname, &out)] for the two queries the code makes;
    the result is what lands in the [GLint] variable. *)
Definition glGetIntegerv (pname : Z) : M state Z :=
  fun g =>
    if pname =? GL_ARRAY_BUFFER_BINDING then (Return (to_GLint (array_buffer_binding g)), g)
    else if pname =? GL_CURRENT_PROGRAM then (Return (to_GLint (current_program g)), g)
    else (Return 0, g).

(** [glBindBuffer(GL_ARRAY_BUFFER, buffer)] *)
Definition glBindBuffer (target buffer : Z) : M state unit :=
  modify (fun g => if target =? GL_ARRAY_BUFFER
                   then set_array_buffer_binding buffer g else g).

(** [glBufferData(GL_ARRAY_BUFFER, size, data, usage)]: a new data store
    for the bound buffer, or [GL_OUT_OF_MEMORY] when the driver cannot
    create it, or [GL_INVALID_OPERATION] when no buffer is bound. *)
Definition glBufferData (target size usage : Z) : M state unit :=
  modify (fun g =>
    if array_buffer_binding g =? 0 then record_error GL_INVALID_OPERATION g
    else match oom_script g with
         | true :: rest => record_error GL_OUT_OF_MEMORY (set_oom_script rest g)
         | false :: rest =>
             set_buffers (insert (array_buffer_binding g) (Some size)) (set_oom_script rest g)
         | [] => set_buffers (insert (array_buffer_binding g) (Some size)) g
         end).

(** What the [glGetError] after the coming [glBufferData] on a bound
    buffer answers to "out of memory?": the flag is clear and the driver
    runs out of memory, or the flag holds an earlier out-of-memory. *)
Definition upload_reports_oom (g : state) : bool :=
  if error g =? GL_NO_ERROR
  then match oom_script g with true :: _ => true | _ => false end
  else error g =? GL_OUT_OF_MEMORY.

(** [glGetError()] returns the flag and resets it. *)
Definition glGetError : M state Z :=
  fun g => (Return (error g), set_error GL_NO_ERROR g).

(** [glDeleteBuffers(1, &name)]: zero is silently ignored; a deleted
    buffer that is bound leaves the binding at zero. *)
Definition glDeleteBuffers (name : Z) : M state unit :=
  modify (fun g =>
    if name =? 0 then g
    else
      let g' := set_buffers (delete name) g in
      if array_buffer_binding g =? name then set_array_buffer_binding 0 g' else g').

(** [glGetAttribLocation(program, name)]: the slot, or -1. *)
Definition glGetAttribLocation (program : Z) (name : string) : M state Z :=
  gets (fun g => default (-1) (attribs g !! (program, name))).

Definition glEnableVertexAttribArray (index : Z) : M state unit :=
  modify (set_enabled (fun e => {[index]} ∪ e)).

Definition glDisableVertexAttribArray (index : Z) : M state unit :=
  modify (set_enabled (fun e => e ∖ {[index]})).

(** [glVertexAttribPointer] and its integer and double variants.  With
    no buffer bound (binding 0) and a pointer that is not null the call
    raises [GL_INVALID_OPERATION] and configures nothing: error
    condition (9) of the reference page, as the source quotes it.  The
    other error conditions of the page are those the constructors of
    the descriptors and the assertion on the location check before the
    call is made. *)
Definition configure (call : pointer_call)
    (index size type normalized stride offset : Z) : M state unit :=
  modify (fun g =>
    if (array_buffer_binding g =? 0) && negb (offset =? 0)
    then record_error GL_INVALID_OPERATION g
    else set_pointers
           (insert index (AttribArray call size type normalized stride offset
                                      (array_buffer_binding g))) g).

Definition glVertexAttribPointer (index size type normalized stride offset : Z) :=
  configure FloatPointer index size type normalized stride offset.

Definition glVertexAttribIPointer (index size type stride offset : Z) :=
  configure IntegerPointer index size type GL_FALSE stride offset.

Definition glVertexAttribLPointer (index size type stride offset : Z) :=
  configure LongPointer index size type GL_FALSE stride offset.

(** A context as a GL implementation keeps it: zero names no buffer,
    object names are [GLuint]s, and an attribute slot is below the
    limit the code compares it with. *)
Record conformant (g : state) : Prop := Conformant {
  zero_unused : buffers g !! 0 = None;
  binding_GLuint : is_GLuint (array_buffer_binding g);
  program_GLuint : is_GLuint (current_program g);
  slots_bounded : forall p n loc,
    attribs g !! (p, n) = Some loc -> 0 <= loc < GL_MAX_VERTEX_ATTRIBS
}.

End GL.

(** ** namespace midnight::detail *)

Module detail.

Import GL.

(** [getAttribLocation(handle, name)] *)
Definition getAttribLocation (handle : Z) (name : string) : M GL.state Z :=
  dynamic_assert (negb (handle =? 0)) ;;;
  rv <- glGetAttribLocation handle name ;;
  if rv =? -1 then throw AttributeNotFoundException else ret rv.

(** The data members of [AttributePointerBase]; [offset] is the
    [const GLvoid*] taken as a number. *)
Record AttributePointerBase : Type := MkBase {
  name : string;
  size : Z;
  type : Z;
  stride : Z;
  offset : Z;
  normalized : Z
}.

(** The constructor of [AttributePointerBase]: error conditions (2),
    (4), (5), (6), (7), (8), in the order the code checks them. *)
Definition AttributePointerBase_ctor {S}
    (name : string) (size type stride offset normalized : Z)
    : M S AttributePointerBase :=
  dynamic_assert (((0 <? size) && (size <? 5)) || (size =? GL_BGRA)) ;;;
  dynamic_assert (0 <=? stride) ;;;
  dynamic_assert (negb (size =? GL_BGRA)
                  || (type =? GL_UNSIGNED_BYTE)
                  || (type =? GL_INT_2_10_10_10_REV)
                  || (type =? GL_UNSIGNED_INT_2_10_10_10_REV)) ;;;
  dynamic_assert ((negb (type =? GL_INT_2_10_10_10_REV)
                   && negb (type =? GL_UNSIGNED_INT_2_10_10_10_REV))
                  || (size =? 4)
                  || (size =? GL_BGRA)) ;;;
  dynamic_assert (negb (type =? GL_UNSIGNED_INT_10F_11F_11F_REV)
                  || (size =? 3)) ;;;
  dynamic_assert (negb (size =? GL_BGRA)
                  || (normalized =? GL_TRUE)) ;;;
  ret (MkBase name size type stride offset normalized).

(** The three classes derived from [AttributePointerBase]. *)
Inductive Attribute : Type :=
  | AttributePointer (b : AttributePointerBase)
  | AttributeIPointer (b : AttributePointerBase)
  | AttributeLPointer (b : AttributePointerBase).

Definition base (a : Attribute) : AttributePointerBase :=
  match a with
  | AttributePointer b | AttributeIPointer b | AttributeLPointer b => b
  end.

(** Error condition (3) of each derived constructor, after the base's. *)
Definition AttributePointer_ctor {S}
    (name : string) (size type normalized stride offset : Z) : M S Attribute :=
  b <- AttributePointerBase_ctor name size type stride offset normalized ;;
  dynamic_assert ((type =? GL_BYTE)
                  || (type =? GL_UNSIGNED_BYTE)
                  || (type =? GL_SHORT)
                  || (type =? GL_UNSIGNED_SHORT)
                  || (type =? GL_INT)
                  || (type =? GL_UNSIGNED_INT)
                  || (type =? GL_HALF_FLOAT)
                  || (type =? GL_FLOAT)
                  || (type =? GL_DOUBLE)
                  || (type =? GL_FIXED)
                  || (type =? GL_INT_2_10_10_10_REV)
                  || (type =? GL_UNSIGNED_INT_2_10_10_10_REV)
                  || (type =? GL_UNSIGNED_INT_10F_11F_11F_REV)) ;;;
  ret (AttributePointer b).

Definition AttributeIPointer_ctor {S}
    (name : string) (size type stride offset : Z) : M S Attribute :=
  b <- AttributePointerBase_ctor name size type stride offset GL_FALSE ;;
  dynamic_assert ((type =? GL_BYTE)
                  || (type =? GL_UNSIGNED_BYTE)
                  || (type =? GL_SHORT)
                  || (type =? GL_UNSIGNED_SHORT)
                  || (type =? GL_INT)
                  || (type =? GL_UNSIGNED_INT)) ;;;
  ret (AttributeIPointer b).

Definition AttributeLPointer_ctor {S}
    (name : string) (size type stride offset : Z) : M S Attribute :=
  b <- AttributePointerBase_ctor name size type stride offset GL_FALSE ;;
  dynamic_assert (type =? GL_DOUBLE) ;;;
  ret (AttributeLPointer b).

(** The virtual [postBind(index)]. *)
Definition postBind (a : Attribute) (index : Z) : M GL.state unit :=
  match a with
  | AttributePointer b =>
      glVertexAttribPointer index (size b) (type b) (normalized b) (stride b) (offset b)
  | AttributeIPointer b =>
      glVertexAttribIPointer index (size b) (type b) (stride b) (offset b)
  | AttributeLPointer b =>
      glVertexAttribLPointer index (size b) (type b) (stride b) (offset b)
  end.

(** [AttributePointerBase::bind(programHandle)] *)
Definition Attribute_bind (a : Attribute) (programHandle : Z) : M GL.state unit :=
  location <- getAttribLocation programHandle (name (base a)) ;;
  dynamic_assert (location <? GL_MAX_VERTEX_ATTRIBS) ;;;
  glEnableVertexAttribArray location ;;;
  postBind a location.

(** [AttributePointerBase::unbind()] *)
Definition Attribute_unbind (a : Attribute) : M GL.state unit :=
  handle <- glGetIntegerv GL_CURRENT_PROGRAM ;;
  location <- getAttribLocation (to_GLuint handle) (name (base a)) ;;
  glDisableVertexAttribArray location.

(** [VertexBufferBindHelper]: its one data member, its constructor and
    its destructor. *)
Record VertexBufferBindHelper : Type := MkHelper { preserved : Z }.

Definition VertexBufferBindHelper_ctor (handle : Z) : M GL.state VertexBufferBindHelper :=
  p <- glGetIntegerv GL_ARRAY_BUFFER_BINDING ;;
  glBindBuffer GL_ARRAY_BUFFER handle ;;;
  ret (MkHelper p).

Definition VertexBufferBindHelper_dtor (h : VertexBufferBindHelper) : M GL.state unit :=
  glBindBuffer GL_ARRAY_BUFFER (to_GLuint (preserved h)).

Section VertexBufferImpl.

(** The template parameters: the vertex record [T] with its [sizeof],
    and the usage hint. *)
Context {T : Type} (sizeofT : Z) (Usage : Z).

Record VertexBufferImpl : Type := MkImpl {
  handle : Z;
  data : list T;
  attributes : list Attribute
}.

(** A member function runs over the object and the context. *)
Definition this_state : Type := VertexBufferImpl * GL.state.

Definition gl {A} (m : M GL.state A) : M this_state A :=
  fun s => let '(r, g) := m (snd s) in (r, (fst s, g)).

Definition this {A} (f : VertexBufferImpl -> A) : M this_state A :=
  gets (fun s => f (fst s)).

Definition set_handle (h : Z) : M this_state unit :=
  modify (fun s => (MkImpl h (data (fst s)) (attributes (fst s)), snd s)).

Definition set_data (d : list T) : M this_state unit :=
  modify (fun s => (MkImpl (handle (fst s)) d (attributes (fst s)), snd s)).

Definition set_attributes (l : list Attribute) : M this_state unit :=
  modify (fun s => (MkImpl (handle (fst s)) (data (fst s)) l, snd s)).

(** The byte count handed to [glBufferData]: [sizeof(T) * data.size()]. *)
Definition byte_size (d : list T) : Z := sizeofT * Z.of_nat (length d).

(** [rebuffer(data)] *)
Definition rebuffer (d : list T) : M this_state unit :=
  newHandle <- gl glGenBuffers ;;
  scoped (gl (VertexBufferBindHelper_ctor newHandle))
         (fun helper => gl (VertexBufferBindHelper_dtor helper))
         (fun _ =>
            gl (glBufferData GL_ARRAY_BUFFER (byte_size d) Usage) ;;;
            e <- gl glGetError ;;
            (if e =? GL_OUT_OF_MEMORY
             then gl (glDeleteBuffers newHandle) ;;; throw ResourceException
             else ret tt) ;;;
            set_data d ;;;
            old <- this handle ;;
            gl (glDeleteBuffers old) ;;;
            set_handle newHandle).

(** The constructors from a vertex sequence (by reference and by
    rvalue: the same body).  The object exists once the body returns. *)
Definition VertexBufferImpl_ctor (d : list T) : M GL.state VertexBufferImpl :=
  h <- glGenBuffers ;;
  scoped (VertexBufferBindHelper_ctor h)
         VertexBufferBindHelper_dtor
         (fun _ =>
            glBufferData GL_ARRAY_BUFFER (byte_size d) Usage ;;;
            e <- glGetError ;;
            if e =? GL_OUT_OF_MEMORY then throw ResourceException else ret tt) ;;;
  ret (MkImpl h d []).

(** The move constructor: the new object, and what is left of [rhs]
    (a moved-from vector and list, taken as empty). *)
Definition VertexBufferImpl_move (rhs : VertexBufferImpl)
    : VertexBufferImpl * VertexBufferImpl :=
  (MkImpl (handle rhs) (data rhs) (attributes rhs), MkImpl 0 [] []).

(** [setVertexData(data)], by reference and by rvalue: the same body. *)
Definition setVertexData (d : list T) : M this_state unit :=
  bound <- gl (glGetIntegerv GL_ARRAY_BUFFER_BINDING) ;;
  h <- this handle ;;
  (if h =? to_GLuint bound then throw BindException else ret tt) ;;;
  rebuffer d.

Definition push_back (a : Attribute) : M this_state unit :=
  l <- this attributes ;;
  set_attributes (l ++ [a]).

Definition addAttributePointer
    (name : string) (size type normalized stride offset : Z) : M this_state unit :=
  a <- AttributePointer_ctor name size type normalized stride offset ;;
  push_back a.

Definition addAttributeIPointer
    (name : string) (size type stride offset : Z) : M this_state unit :=
  a <- AttributeIPointer_ctor name size type stride offset ;;
  push_back a.

Definition addAttributeLPointer
    (name : string) (size stride offset : Z) : M this_state unit :=
  a <- AttributeLPointer_ctor name size GL_DOUBLE stride offset ;;
  push_back a.

(** [bind()] *)
Definition bind : M this_state unit :=
  programHandle <- gl (glGetIntegerv GL_CURRENT_PROGRAM) ;;
  (if programHandle =? 0 then throw BindException else ret tt) ;;;
  h <- this handle ;;
  gl (glBindBuffer GL_ARRAY_BUFFER h) ;;;
  l <- this attributes ;;
  for_each (fun ptr => gl (Attribute_bind ptr (to_GLuint programHandle))) l.

(** [unbind()].  It is [noexcept]: an exception that leaves it ends the
    program. *)
Definition unbind : M this_state unit :=
  gl (glBindBuffer GL_ARRAY_BUFFER 0) ;;;
  l <- this attributes ;;
  for_each (fun ptr => gl (Attribute_unbind ptr)) l.

(** [resetAttributes()] *)
Definition resetAttributes : M this_state unit :=
  set_attributes [].

(** The destructor. *)
Definition VertexBufferImpl_dtor (o : VertexBufferImpl) : M GL.state unit :=
  glDeleteBuffers (handle o).

End VertexBufferImpl.

Arguments VertexBufferImpl T : clear implicits.
Arguments this_state T : clear implicits.

End detail.

(** ** The registration rules in the words of the spec

    Section 4.1 of the spec lists the rules an attribute registration
    must satisfy.  They are written down here as the spec has them,
    next to the checks of the constructors above. *)

Module spec.

(** "component count must be 1, 2, 3, 4, or the packed-BGRA marker" *)
Definition count_rule (size : Z) : bool :=
  (size =? 1) || (size =? 2) || (size =? 3) || (size =? 4) || (size =? GL_BGRA).

(** "stride must be non-negative" *)
Definition stride_rule (stride : Z) : bool := 0 <=? stride.

(** "BGRA component count requires one of three specific packed data
    types, and requires normalized = true" *)
Definition bgra_type (type : Z) : bool :=
  (type =? GL_UNSIGNED_BYTE)
  || (type =? GL_INT_2_10_10_10_REV)
  || (type =? GL_UNSIGNED_INT_2_10_10_10_REV).

Definition bgra_rule (size type normalized : Z) : bool :=
  implb (size =? GL_BGRA) (bgra_type type && (normalized =? GL_TRUE)).

(** "the two packed 10-10-10-2 data types require component count 4 or
    BGRA" *)
Definition packed_2_10_10_10_rule (size type : Z) : bool :=
  implb ((type =? GL_INT_2_10_10_10_REV) || (type =? GL_UNSIGNED_INT_2_10_10_10_REV))
        ((size =? 4) || (size =? GL_BGRA)).

(** "a specific packed 11-11-10-float type requires component count
    exactly 3" *)
Definition packed_10F_11F_11F_rule (size type : Z) : bool :=
  implb (type =? GL_UNSIGNED_INT_10F_11F_11F_REV) (size =? 3).

(** The rules every family shares. *)
Definition shared_rules (size type normalized stride : Z) : bool :=
  count_rule size
  && stride_rule stride
  && bgra_rule size type normalized
  && packed_2_10_10_10_rule size type
  && packed_10F_11F_11F_rule size type.

(** "the integer variant restricts the allowed type set to exact-integer
    types" *)
Definition exact_integer_type (type : Z) : bool :=
  (type =? GL_BYTE)
  || (type =? GL_UNSIGNED_BYTE)
  || (type =? GL_SHORT)
  || (type =? GL_UNSIGNED_SHORT)
  || (type =? GL_INT)
  || (type =? GL_UNSIGNED_INT).

(** The rule set of each family.  The spec gives the float family no
    rule on the type beyond the shared ones; the integer and the double
    variant take no [normalized] argument, their descriptors carry
    [GL_FALSE]. *)
Definition float_rules (size type normalized stride : Z) : bool :=
  shared_rules size type normalized stride.

Definition integer_rules (size type stride : Z) : bool :=
  shared_rules size type GL_FALSE stride && exact_integer_type type.

Definition double_rules (size type stride : Z) : bool :=
  shared_rules size type GL_FALSE stride && (type =? GL_DOUBLE).

(** The types [glVertexAttribPointer] accepts: the rule the float
    family needs in addition. *)
Definition float_type (type : Z) : bool :=
  (type =? GL_BYTE)
  || (type =? GL_UNSIGNED_BYTE)
  || (type =? GL_SHORT)
  || (type =? GL_UNSIGNED_SHORT)
  || (type =? GL_INT)
  || (type =? GL_UNSIGNED_INT)
  || (type =? GL_HALF_FLOAT)
  || (type =? GL_FLOAT)
  || (type =? GL_DOUBLE)
  || (type =? GL_FIXED)
  || (type =? GL_INT_2_10_10_10_REV)
  || (type =? GL_UNSIGNED_INT_2_10_10_10_REV)
  || (type =? GL_UNSIGNED_INT_10F_11F_11F_REV).

Definition float_rules_with_type (size type normalized stride : Z) : bool :=
  shared_rules size type normalized stride && float_type type.

End spec.

(** ** Managers over one context

    The live managers of a program and the context they share.  A step
    is what C++ allows on a [VertexBufferImpl]: construction from a
    vertex sequence, move construction, a call of a member function,
    destruction; and a step of the code around, which may bind, create
    and fill buffers of its own but leaves the buffers it finds. *)

Module lifecycle.

Import GL detail.

Section World.

Context {T : Type} (sizeofT : Z) (Usage : Z).

Record world : Type := World {
  ctx : GL.state;
  live : gmap nat (VertexBufferImpl T)
}.

Inductive call : Type :=
  | CallSetVertexData (d : list T)
  | CallAddAttributePointer (name : string) (size type normalized stride offset : Z)
  | CallAddAttributeIPointer (name : string) (size type stride offset : Z)
  | CallAddAttributeLPointer (name : string) (size stride offset : Z)
  | CallBind
  | CallUnbind
  | CallResetAttributes.

Definition run (c : call) : M (this_state T) unit :=
  match c with
  | CallSetVertexData d => setVertexData sizeofT Usage d
  | CallAddAttributePointer n s t nm st off => addAttributePointer n s t nm st off
  | CallAddAttributeIPointer n s t st off => addAttributeIPointer n s t st off
  | CallAddAttributeLPointer n s st off => addAttributeLPointer n s st off
  | CallBind => bind
  | CallUnbind => unbind
  | CallResetAttributes => resetAttributes
  end.

(** Where a constructed object goes: nowhere when the constructor threw. *)
Definition constructed (k : nat) (r : outcome (VertexBufferImpl T))
    (objs : gmap nat (VertexBufferImpl T)) : gmap nat (VertexBufferImpl T) :=
  match r with
  | Return o => <[k:=o]> objs
  | Throw _ => objs
  end.

Inductive step : world -> world -> Prop :=
  | step_construct w k d r g' :
      live w !! k = None ->
      VertexBufferImpl_ctor sizeofT Usage d (ctx w) = (r, g') ->
      step w (World g' (constructed k r (live w)))
  | step_move w i k rhs :
      live w !! i = Some rhs ->
      live w !! k = None ->
      step w (World (ctx w)
                    (<[k:=fst (VertexBufferImpl_move rhs)]>
                       (<[i:=snd (VertexBufferImpl_move rhs)]> (live w))))
  | step_call w i o c r o' g' :
      live w !! i = Some o ->
      run c (o, ctx w) = (r, (o', g')) ->
      step w (World g' (<[i:=o']> (live w)))
  | step_destroy w i o r g' :
      live w !! i = Some o ->
      VertexBufferImpl_dtor o (ctx w) = (r, g') ->
      step w (World g' (delete i (live w)))
  | step_ambient w g' :
      (forall n, is_Some (buffers (ctx w) !! n) -> is_Some (buffers g' !! n)) ->
      step w (World g' (live w)).

(** The worlds a program reaches from a context without managers. *)
Definition reachable (g0 : GL.state) (w : world) : Prop :=
  rtc step (World g0 ∅) w.

(** Two live managers with the same non-zero handle are one manager. *)
Definition sole_owner (w : world) : Prop :=
  forall i j oi oj,
    live w !! i = Some oi -> live w !! j = Some oj ->
    handle oi = handle oj -> handle oi <> 0 -> i = j.

(** A live manager's handle is zero or a buffer of the context. *)
Definition handles_allocated (w : world) : Prop :=
  forall i o, live w !! i = Some o ->
    handle o = 0 \/ is_Some (buffers (ctx w) !! handle o).

End World.

End lifecycle.

(** ** Contexts and managers to run the code on *)

Module examples.

Import GL detail.

(** A context with nothing allocated whose driver refuses the next
    upload. *)
Definition exhausted : GL.state :=
  State ∅ 0 0 ∅ ∅ ∅ GL_NO_ERROR [true].

(** A context with nothing allocated and a willing driver. *)
Definition blank : GL.state :=
  State ∅ 0 0 ∅ ∅ ∅ GL_NO_ERROR [].

(** Buffer 1 holds 24 bytes and buffer 2 is bound; program 3 is current
    and has the one attribute "position" in slot 0. *)
Definition drawing (script : list bool) : GL.state :=
  State (<[1:=Some 24]> (<[2:=Some 8]> ∅)) 2 3
        (<[(3, "position"%string):=0]> ∅) ∅ ∅ GL_NO_ERROR script.

(** The same context with no program current. *)
Definition idle : GL.state :=
  State (<[1:=Some 24]> (<[2:=Some 8]> ∅)) 2 0
        (<[(3, "position"%string):=0]> ∅) ∅ ∅ GL_NO_ERROR [].

(** Six vertices of one 4-byte component each. *)
Definition six : list Z := [10; 20; 30; 40; 50; 60].

(** The manager of buffer 1, with the given descriptors. *)
Definition manager (l : list Attribute) : VertexBufferImpl Z := MkImpl 1 six l.

Definition position : Attribute :=
  AttributePointer (MkBase "position" 3 GL_FLOAT 12 0 GL_FALSE).

Definition colour : Attribute :=
  AttributePointer (MkBase "colour" GL_BGRA GL_UNSIGNED_BYTE 4 0 GL_TRUE).

(** Buffer 2 is bound and program 3 is current, with "position" in
    slot 0 and "colour" in slot 1; slots 1 and 7 are enabled. *)
Definition studio : GL.state :=
  State (<[1:=Some 24]> (<[2:=Some 8]> ∅)) 2 3
        (<[(3, "position"%string):=0]> (<[(3, "colour"%string):=1]> ∅))
        ({[1]} ∪ {[7]}) ∅ GL_NO_ERROR [].

(** The studio context with an error pending from earlier calls, and a
    driver that refuses the next upload. *)
Definition pending (e : Z) (script : list bool) : GL.state :=
  State (<[1:=Some 24]> (<[2:=Some 8]> ∅)) 2 3
        (<[(3, "position"%string):=0]> (<[(3, "colour"%string):=1]> ∅))
        ({[1]} ∪ {[7]}) ∅ e script.


(** A descriptor the programs above do not know. *)
Definition normal : Attribute :=
  AttributePointer (MkBase "normal" 3 GL_FLOAT 12 0 GL_FALSE).

(** A program that constructs a manager in the blank context and then
    move-constructs a second one from it. *)
Definition start : lifecycle.world (T:=Z) := lifecycle.World blank ∅.

Definition built : lifecycle.world (T:=Z) :=
  lifecycle.World
    (snd (VertexBufferImpl_ctor 4 GL_STATIC_DRAW six blank))
    (lifecycle.constructed 0 (fst (VertexBufferImpl_ctor 4 GL_STATIC_DRAW six blank)) ∅).

Definition moved : lifecycle.world (T:=Z) :=
  lifecycle.World
    (lifecycle.ctx built)
    (<[1%nat:=fst (VertexBufferImpl_move (manager []))]>
       (<[0%nat:=snd (VertexBufferImpl_move (manager []))]> (lifecycle.live built))).

(** The program of [built], going on to register "position" with its
    manager. *)
Definition described : lifecycle.world (T:=Z) :=
  lifecycle.World
    (snd (snd (lifecycle.run 4 GL_STATIC_DRAW
                 (lifecycle.CallAddAttributePointer "position" 3 GL_FLOAT GL_FALSE 12 0)
                 (manager [], lifecycle.ctx built))))
    (<[0%nat:=fst (snd (lifecycle.run 4 GL_STATIC_DRAW
                          (lifecycle.CallAddAttributePointer
                             "position" 3 GL_FLOAT GL_FALSE 12 0)
                          (manager [], lifecycle.ctx built)))]>
       (lifecycle.live built)).

End examples.

(** ** Polygon counts *)

Module polygons.

Import detail.

(** [PolySize<PolyType>::size()]: the primary template deletes it, four
    specialisations define it. *)
Definition PolySize (PolyType : Z) : option Z :=
  if PolyType =? GL_POINTS then Some 1
  else if PolyType =? GL_LINES then Some 2
  else if PolyType =? GL_TRIANGLES then Some 3
  else if PolyType =? GL_QUADS then Some 4
  else None.

(** The [static_assert] on the [PolyType] of [VertexBufferImpl]. *)
Definition PolyType_allowed (PolyType : Z) : bool :=
  (PolyType =? GL_TRIANGLES) || (PolyType =? GL_QUADS).

(** [vertexCount()]: [data.size() / PolySize<PolyType>::size()], for a
    [PolyType] the class can be instantiated with. *)
Definition vertexCount {T} (PolyType : Z) (o : VertexBufferImpl T) : option Z :=
  if PolyType_allowed PolyType
  then match PolySize PolyType with
       | Some n => Some (Z.of_nat (length (data o)) / n)
       | None => None
       end
  else None.

End polygons.

(** ** What a descriptor asks of the context *)

Module layout.

Import GL detail.

(** The slot [glGetAttribLocation] answers for a descriptor's name, read
    off the attribute table of the context. *)
Definition slot (table : gmap (Z * string) Z) (program : Z) (a : Attribute) : Z :=
  default (-1) (table !! (program, name (base a))).

(** The configuration [postBind] leaves in a slot while [buffer] is
    bound. *)
Definition array_of (a : Attribute) (buffer : Z) : attrib_array :=
  match a with
  | AttributePointer b =>
      AttribArray FloatPointer (size b) (type b) (normalized b) (stride b) (offset b) buffer
  | AttributeIPointer b =>
      AttribArray IntegerPointer (size b) (type b) GL_FALSE (stride b) (offset b) buffer
  | AttributeLPointer b =>
      AttribArray LongPointer (size b) (type b) GL_FALSE (stride b) (offset b) buffer
  end.

(** The slots of a descriptor list, and the configurations the list
    leaves when applied in order. *)
Definition slots (table : gmap (Z * string) Z) (program : Z) (l : list Attribute) : gset Z :=
  list_to_set (slot table program <$> l).

Definition configure_all (table : gmap (Z * string) Z) (program buffer : Z)
    (l : list Attribute) (m : gmap Z attrib_array) : gmap Z attrib_array :=
  foldl (fun m a => <[slot table program a:=array_of a buffer]> m) m l.

(** A descriptor whose [postBind] raises error condition (9) while
    [buffer] is bound: no buffer and a pointer that is not null. *)
Definition faults (buffer : Z) (a : Attribute) : bool :=
  (buffer =? 0) && negb (offset (base a) =? 0).

(** The descriptors of a list whose [postBind] configures their slot. *)
Fixpoint effective (buffer : Z) (l : list Attribute) : list Attribute :=
  match l with
  | [] => []
  | a :: l' => if faults buffer a then effective buffer l' else a :: effective buffer l'
  end.

(** The error flag after the [postBind] calls of a list. *)
Fixpoint flag_all (buffer : Z) (l : list Attribute) (e : Z) : Z :=
  match l with
  | [] => e
  | a :: l' =>
      flag_all buffer l'
        (if faults buffer a
         then (if e =? GL_NO_ERROR then GL_INVALID_OPERATION else e)
         else e)
  end.

(** The program knows the name of every descriptor of the list. *)
Definition all_known (table : gmap (Z * string) Z) (program : Z) (l : list Attribute) : Prop :=
  forall a, a ∈ l -> is_Some (table !! (program, name (base a))).

(** What the constructors of the three families let through. *)
Definition checked (a : Attribute) : bool :=
  match a with
  | AttributePointer b =>
      spec.float_rules_with_type (size b) (type b) (normalized b) (stride b)
  | AttributeIPointer b =>
      spec.integer_rules (size b) (type b) (stride b) && (normalized b =? GL_FALSE)
  | AttributeLPointer b =>
      spec.double_rules (size b) (type b) (stride b) && (normalized b =? GL_FALSE)
  end.

End layout.

(** ** Properties *)

Import GL detail.

Arguments to_GLint : simpl never.
Arguments to_GLuint : simpl never.

(** *** Conversions between [GLint] and [GLuint] *)

Lemma to_GLuint_to_GLint z : is_GLuint z -> to_GLuint (to_GLint z) = z.
Proof.
  unfold is_GLuint, to_GLuint, to_GLint. intros Hz.
  destruct (Z_lt_ge_dec z (2 ^ 31)) as [Hlt|Hge].
  - rewrite (Z.mod_small (z + 2 ^ 31)) by lia.
    replace (z + 2 ^ 31 - 2 ^ 31) with z by lia.
    apply Z.mod_small; lia.
  - replace (z + 2 ^ 31) with ((z - 2 ^ 31) + 1 * 2 ^ 32) by lia.
    rewrite Z.mod_add by lia.
    rewrite (Z.mod_small (z - 2 ^ 31)) by lia.
    replace (z - 2 ^ 31 - 2 ^ 31) with (z + (-1) * 2 ^ 32) by lia.
    rewrite Z.mod_add by lia.
    apply Z.mod_small; lia.
Qed.

Lemma to_GLint_zero z : is_GLuint z -> to_GLint z = 0 -> z = 0.
Proof.
  intros Hz H0. rewrite <- (to_GLuint_to_GLint z Hz), H0. reflexivity.
Qed.

(** *** The GL context *)

Lemma unused_name_unused g : buffers g !! unused_name g = None.
Proof.
  apply not_elem_of_dom. unfold unused_name.
  pose proof (is_fresh ({[0]} ∪ dom (buffers g))) as Hf. set_solver.
Qed.

Lemma unused_name_nonzero g : unused_name g <> 0.
Proof.
  unfold unused_name.
  pose proof (is_fresh ({[0]} ∪ dom (buffers g))) as Hf. set_solver.
Qed.

Lemma glGetIntegerv_binding g :
  glGetIntegerv GL_ARRAY_BUFFER_BINDING g = (Return (to_GLint (array_buffer_binding g)), g).
Proof. reflexivity. Qed.

Lemma glGetIntegerv_program g :
  glGetIntegerv GL_CURRENT_PROGRAM g = (Return (to_GLint (current_program g)), g).
Proof. reflexivity. Qed.

Lemma glBindBuffer_array b g :
  glBindBuffer GL_ARRAY_BUFFER b g = (Return tt, set_array_buffer_binding b g).
Proof. reflexivity. Qed.

Lemma eqb_to_GLint_zero z : is_GLuint z -> (to_GLint z =? 0) = (z =? 0).
Proof.
  intros Hz. destruct (Z.eqb_spec z 0) as [->|Hne].
  - reflexivity.
  - apply Z.eqb_neq. intros H0. apply Hne. by apply to_GLint_zero.
Qed.

(** [postBind] configures the slot, or raises error condition (9). *)
Lemma postBind_run a index g :
  postBind a index g
  = (Return tt,
     if layout.faults (array_buffer_binding g) a
     then record_error GL_INVALID_OPERATION g
     else set_pointers (insert index (layout.array_of a (array_buffer_binding g))) g).
Proof. destruct a; reflexivity. Qed.

Lemma record_error_keeps e g :
  buffers (record_error e g) = buffers g
  /\ array_buffer_binding (record_error e g) = array_buffer_binding g
  /\ current_program (record_error e g) = current_program g
  /\ attribs (record_error e g) = attribs g
  /\ enabled (record_error e g) = enabled g
  /\ pointers (record_error e g) = pointers g
  /\ oom_script (record_error e g) = oom_script g.
Proof. unfold record_error. destruct (error g =? GL_NO_ERROR); done. Qed.

(** *** Bind *)

Section Bind.

Context {T : Type}.
Implicit Types (o : VertexBufferImpl T) (g : GL.state).

(** Without a current program [bind] throws before it touches anything. *)
Lemma bind_no_program o g :
  current_program g = 0 -> bind (o, g) = (Throw BindException, (o, g)).
Proof.
  intros Hp. unfold bind, mbind, gl. cbn [snd fst].
  rewrite glGetIntegerv_program, Hp. reflexivity.
Qed.

Lemma Attribute_bind_missing a p g :
  p <> 0 -> attribs g !! (p, name (base a)) = None ->
  Attribute_bind a p g = (Throw AttributeNotFoundException, g).
Proof.
  intros Hp Hnone. unfold Attribute_bind, getAttribLocation, mbind, dynamic_assert.
  apply Z.eqb_neq in Hp. rewrite Hp. cbn.
  unfold glGetAttribLocation, gets. rewrite Hnone. reflexivity.
Qed.

Lemma Attribute_bind_found a p g loc :
  p <> 0 -> attribs g !! (p, name (base a)) = Some loc ->
  0 <= loc < GL_MAX_VERTEX_ATTRIBS ->
  exists g', Attribute_bind a p g = (Return tt, g') /\ attribs g' = attribs g.
Proof.
  intros Hp Hsome Hloc.
  unfold Attribute_bind, getAttribLocation, mbind, dynamic_assert.
  apply Z.eqb_neq in Hp. rewrite Hp. cbn.
  unfold glGetAttribLocation, gets. rewrite Hsome. cbn [default from_option]. unfold id.
  replace (loc =? -1) with false by (symmetry; apply Z.eqb_neq; lia).
  unfold ret at 1.
  replace (loc <? GL_MAX_VERTEX_ATTRIBS) with true by (symmetry; apply Z.ltb_lt; lia).
  cbn [ret]. unfold glEnableVertexAttribArray, modify. rewrite postBind_run.
  eexists. split; [reflexivity|].
  destruct (layout.faults _ a); [|reflexivity].
  by rewrite (proj1 (proj2 (proj2 (proj2 (record_error_keeps _ _))))).
Qed.

Lemma for_each_bind_missing p (l : list Attribute) o g :
  p <> 0 ->
  (forall q n loc, attribs g !! (q, n) = Some loc -> 0 <= loc < GL_MAX_VERTEX_ATTRIBS) ->
  (exists a, a ∈ l /\ attribs g !! (p, name (base a)) = None) ->
  fst (for_each (fun ptr => gl (T:=T) (Attribute_bind ptr p)) l (o, g))
  = Throw AttributeNotFoundException.
Proof.
  intros Hp. revert g. induction l as [|a l IH]; intros g Hslots [x [Hin Hx]].
  - by apply elem_of_nil in Hin.
  - cbn [for_each]. unfold mbind at 1. unfold gl at 1. cbn [snd fst].
    destruct (attribs g !! (p, name (base a))) as [loc|] eqn:Ha.
    + destruct (Attribute_bind_found a p g loc Hp Ha (Hslots _ _ _ Ha)) as [g' [Hrun Hsame]].
      rewrite Hrun. apply IH.
      * intros q n loc'. rewrite Hsame. apply Hslots.
      * apply elem_of_cons in Hin as [->|Hin]; [congruence|].
        exists x. by rewrite Hsame.
    + by rewrite (Attribute_bind_missing a p g Hp Ha).
Qed.

End Bind.

(** *** Upload: the constructors and [rebuffer] *)

Section Upload.

Context {T : Type} (sizeofT : Z) (Usage : Z).
Implicit Types (o : VertexBufferImpl T) (g : GL.state) (d : list T).

(** The context in which the upload runs: a new name, bound. *)
Local Abbreviation uploading g :=
  (set_array_buffer_binding (unused_name g)
     (set_buffers (insert (unused_name g) None) g)).

Local Abbreviation uploaded d g :=
  (snd (glBufferData GL_ARRAY_BUFFER (byte_size sizeofT d) Usage (uploading g))).

Local Abbreviation restored g g' :=
  (set_array_buffer_binding (to_GLuint (to_GLint (array_buffer_binding g))) g').

Lemma glBufferData_effect sz us g :
  array_buffer_binding g <> 0 ->
  let g2 := snd (glBufferData GL_ARRAY_BUFFER sz us g) in
  (buffers g2 = buffers g \/ buffers g2 = <[array_buffer_binding g:=Some sz]> (buffers g))
  /\ array_buffer_binding g2 = array_buffer_binding g
  /\ (error g2 =? GL_OUT_OF_MEMORY) = upload_reports_oom g.
Proof.
  intros Hb. apply Z.eqb_neq in Hb.
  unfold glBufferData, modify, upload_reports_oom, record_error. cbn [snd]. rewrite Hb.
  destruct (oom_script g) as [|[] rest]; cbn;
    destruct (error g =? GL_NO_ERROR) eqn:He; cbn; rewrite ?He; auto.
  all: apply Z.eqb_eq in He; rewrite He; auto.
Qed.

Lemma uploaded_effect d g :
  (exists v, buffers (uploaded d g) = <[unused_name g:=v]> (buffers g))
  /\ array_buffer_binding (uploaded d g) = unused_name g
  /\ (error (uploaded d g) =? GL_OUT_OF_MEMORY) = upload_reports_oom g.
Proof.
  destruct (glBufferData_effect (byte_size sizeofT d) Usage (uploading g))
    as (Hbuf & Hbind & Herr); [apply unused_name_nonzero|].
  cbn [array_buffer_binding set_array_buffer_binding buffers set_buffers] in *.
  split; [|split; [exact Hbind|exact Herr]].
  destruct Hbuf as [-> | ->]; [by eexists|].
  rewrite insert_insert_eq. by eexists.
Qed.

(** The constructor, run up to the check of the error flag. *)
Lemma VertexBufferImpl_ctor_run d g :
  VertexBufferImpl_ctor sizeofT Usage d g =
  if upload_reports_oom g
  then (Throw ResourceException, restored g (set_error GL_NO_ERROR (uploaded d g)))
  else (Return (MkImpl (unused_name g) d []),
        restored g (set_error GL_NO_ERROR (uploaded d g))).
Proof.
  destruct (uploaded_effect d g) as (_ & _ & <-).
  unfold VertexBufferImpl_ctor, mbind, glGenBuffers, scoped,
    VertexBufferBindHelper_ctor, VertexBufferBindHelper_dtor.
  unfold mbind. rewrite glGetIntegerv_binding, glBindBuffer_array.
  unfold ret at 1. cbn beta iota.
  unfold glGetError.
  destruct (glBufferData GL_ARRAY_BUFFER (byte_size sizeofT d) Usage (uploading g))
    as [[[]|e] g2] eqn:Hup; cbn [snd];
    [|unfold glBufferData, modify in Hup; discriminate].
  cbn beta iota.
  destruct (error g2 =? GL_OUT_OF_MEMORY); reflexivity.
Qed.

(** [rebuffer], run up to the check of the error flag. *)
Lemma rebuffer_run d o g :
  rebuffer sizeofT Usage d (o, g) =
  if upload_reports_oom g
  then (Throw ResourceException,
        (o, restored g (snd (glDeleteBuffers (unused_name g)
                               (set_error GL_NO_ERROR (uploaded d g))))))
  else (Return tt,
        (MkImpl (unused_name g) d (attributes o),
         restored g (snd (glDeleteBuffers (handle o)
                            (set_error GL_NO_ERROR (uploaded d g)))))).
Proof.
  destruct (uploaded_effect d g) as (_ & _ & <-).
  unfold rebuffer, mbind, gl, glGenBuffers, scoped,
    VertexBufferBindHelper_ctor, VertexBufferBindHelper_dtor.
  unfold mbind. cbn [fst snd]. rewrite glGetIntegerv_binding, glBindBuffer_array.
  unfold ret at 1. cbn beta iota. cbn [fst snd].
  unfold glGetError.
  destruct (glBufferData GL_ARRAY_BUFFER (byte_size sizeofT d) Usage (uploading g))
    as [[[]|e] g2] eqn:Hup; cbn [snd];
    [|unfold glBufferData, modify in Hup; discriminate].
  cbn beta iota. cbn [fst snd].
  destruct (error g2 =? GL_OUT_OF_MEMORY); destruct o; reflexivity.
Qed.

End Upload.

(** *** Re-upload *)

Section SetVertexData.

Context {T : Type} (sizeofT : Z) (Usage : Z).
Implicit Types (o : VertexBufferImpl T) (g : GL.state) (d : list T).

Lemma setVertexData_unfold d o g :
  setVertexData sizeofT Usage d (o, g) =
  if handle o =? to_GLuint (to_GLint (array_buffer_binding g))
  then (Throw BindException, (o, g))
  else rebuffer sizeofT Usage d (o, g).
Proof.
  unfold setVertexData, mbind at 1, gl at 1. cbn [fst snd].
  rewrite glGetIntegerv_binding. unfold mbind at 1, this at 1, gets. cbn [fst snd].
  unfold mbind at 1.
  destruct (handle o =? to_GLuint (to_GLint (array_buffer_binding g))); reflexivity.
Qed.

Lemma setVertexData_run d o g :
  is_GLuint (array_buffer_binding g) ->
  setVertexData sizeofT Usage d (o, g) =
  if handle o =? array_buffer_binding g
  then (Throw BindException, (o, g))
  else rebuffer sizeofT Usage d (o, g).
Proof.
  intros Hb. by rewrite setVertexData_unfold, (to_GLuint_to_GLint _ Hb).
Qed.

Lemma deleted_new_name g g2 v :
  buffers g2 = <[unused_name g:=v]> (buffers g) ->
  buffers (snd (glDeleteBuffers (unused_name g) g2)) = buffers g.
Proof.
  intros Hb. unfold glDeleteBuffers, modify. cbn [snd].
  rewrite (proj2 (Z.eqb_neq _ _) (unused_name_nonzero g)).
  destruct (array_buffer_binding g2 =? unused_name g);
    cbn [buffers set_buffers set_array_buffer_binding]; rewrite Hb;
    apply delete_insert_id, unused_name_unused.
Qed.

(** The upload reports out-of-memory: the new name is given back and
    neither the manager nor the buffers have changed. *)
Lemma rebuffer_oom d o g :
  upload_reports_oom g = true ->
  exists g',
    rebuffer sizeofT Usage d (o, g) = (Throw ResourceException, (o, g'))
    /\ buffers g' = buffers g
    /\ array_buffer_binding g' = to_GLuint (to_GLint (array_buffer_binding g)).
Proof.
  intros Hoom. rewrite rebuffer_run, Hoom. eexists. split; [reflexivity|].
  destruct (uploaded_effect sizeofT Usage d g) as ([v Hbuf] & _ & _).
  split; [|reflexivity].
  cbn [buffers set_array_buffer_binding].
  by apply (deleted_new_name g _ v).
Qed.

(** The upload reports no out-of-memory: the manager has the data and
    the new name, the old name is deleted. *)
Lemma rebuffer_ok d o g :
  upload_reports_oom g = false ->
  exists g' v,
    rebuffer sizeofT Usage d (o, g)
    = (Return tt, (MkImpl (unused_name g) d (attributes o), g'))
    /\ buffers g' = (if handle o =? 0 then <[unused_name g:=v]> (buffers g)
                     else delete (handle o) (<[unused_name g:=v]> (buffers g)))
    /\ array_buffer_binding g' = to_GLuint (to_GLint (array_buffer_binding g)).
Proof.
  intros Hok. rewrite rebuffer_run, Hok.
  destruct (uploaded_effect sizeofT Usage d g) as ([v Hbuf] & _ & _).
  eexists. exists v. split; [reflexivity|]. split; [|reflexivity].
  cbn [buffers set_array_buffer_binding].
  unfold glDeleteBuffers, modify. cbn [snd].
  destruct (handle o =? 0); [exact Hbuf|].
  match goal with |- context [if ?c then _ else _] => destruct c end;
    cbn [buffers set_buffers set_array_buffer_binding set_error];
    by rewrite Hbuf.
Qed.

End SetVertexData.

(** *** The example contexts are conformant *)

Lemma drawing_conformant script : conformant (examples.drawing script).
Proof.
  split; try (unfold is_GLuint; cbn; lia).
  - reflexivity.
  - intros p n loc. cbn [attribs examples.drawing].
    intros [[_ <-] | [_ H]]%lookup_insert_Some; [unfold GL_MAX_VERTEX_ATTRIBS; lia|].
    by rewrite lookup_empty in H.
Qed.

Lemma idle_conformant : conformant examples.idle.
Proof.
  split; try (unfold is_GLuint; cbn; lia).
  - reflexivity.
  - intros p n loc. cbn [attribs examples.idle].
    intros [[_ <-] | [_ H]]%lookup_insert_Some; [unfold GL_MAX_VERTEX_ATTRIBS; lia|].
    by rewrite lookup_empty in H.
Qed.

Lemma exhausted_conformant : conformant examples.exhausted.
Proof.
  split; try (unfold is_GLuint; cbn; lia).
  - reflexivity.
  - intros p n loc. cbn [attribs examples.exhausted]. by rewrite lookup_empty.
Qed.

(** *** Construction that runs out of memory *)

(** Whenever the upload of the constructor reports out-of-memory, the
    constructor throws and the name it generated stays in use. *)
Lemma VertexBufferImpl_ctor_oom {T} sizeofT Usage (d : list T) g :
  upload_reports_oom g = true ->
  exists g',
    VertexBufferImpl_ctor sizeofT Usage d g = (Throw ResourceException, g')
    /\ is_Some (buffers g' !! unused_name g)
    /\ allocation_count g' = S (allocation_count g).
Proof.
  intros Hoom. rewrite VertexBufferImpl_ctor_run, Hoom.
  eexists. split; [reflexivity|].
  destruct (uploaded_effect sizeofT Usage d g) as ([v Hbuf] & _ & _).
  unfold allocation_count. cbn [buffers set_array_buffer_binding set_error].
  rewrite Hbuf. split.
  - rewrite lookup_insert_eq. by eexists.
  - apply map_size_insert_None, unused_name_unused.
Qed.

(** C1, where the code departs from the claim.  In a context with no
    buffer allocated whose driver runs out of memory on the upload,
    constructing a manager from six vertices throws [ResourceException],
    as the claim says, but the buffer name the constructor generated is
    not given back: the allocation count of the context goes from 0 to
    1, and name 1 stays in use without a data store. *)
Theorem ctor_out_of_memory_keeps_handle :
  fst (VertexBufferImpl_ctor 4 GL_STATIC_DRAW examples.six examples.exhausted)
  = Throw ResourceException
  /\ allocation_count examples.exhausted = 0%nat
  /\ allocation_count
       (snd (VertexBufferImpl_ctor 4 GL_STATIC_DRAW examples.six examples.exhausted))
     = 1%nat
  /\ buffers (snd (VertexBufferImpl_ctor 4 GL_STATIC_DRAW examples.six examples.exhausted))
     !! 1 = Some None.
Proof. vm_compute. repeat split; reflexivity. Qed.

(** *** The claims on re-upload *)

(** C2.  For every manager, every input sequence and every conformant
    context: when the manager's handle is the current array-buffer
    binding, [setVertexData] throws [BindException] and leaves the
    manager (its data, its handle, its descriptors) and the context as
    they were. *)
Theorem setVertexData_while_bound {T} (sizeofT Usage : Z)
    (o : VertexBufferImpl T) (d : list T) (g : GL.state) :
  conformant g ->
  handle o = array_buffer_binding g ->
  setVertexData sizeofT Usage d (o, g) = (Throw BindException, (o, g)).
Proof.
  intros Hg Hbound. rewrite setVertexData_run by apply Hg.
  by rewrite Hbound, Z.eqb_refl.
Qed.

Lemma setVertexData_while_bound_witness :
  setVertexData 4 GL_STATIC_DRAW [70]
    (MkImpl 2 examples.six [examples.position], examples.drawing [])
  = (Throw BindException,
     (MkImpl 2 examples.six [examples.position], examples.drawing [])).
Proof.
  apply setVertexData_while_bound; [apply drawing_conformant | reflexivity].
Defined.





(** When the manager is not bound and the upload reports no
    out-of-memory, [setVertexData] returns. *)
Lemma setVertexData_returns {T} (sizeofT Usage : Z)
    (o : VertexBufferImpl T) (d : list T) (g : GL.state) :
  is_GLuint (array_buffer_binding g) ->
  handle o <> array_buffer_binding g ->
  upload_reports_oom g = false ->
  fst (setVertexData sizeofT Usage d (o, g)) = Return tt.
Proof.
  intros Hb Hfree Hok. rewrite setVertexData_run by done.
  rewrite (proj2 (Z.eqb_neq _ _) Hfree).
  destruct (rebuffer_ok sizeofT Usage d o g Hok) as (g' & v & -> & _). reflexivity.
Qed.

(** C4.  For every manager whose handle is zero or a buffer of the
    (conformant) context, and every input sequence: when
    [setVertexData] returns, the manager's data is the input sequence
    and its descriptors are the old ones; its handle is a name that was
    not in use before, differs from zero and from the old handle, and
    names a buffer of the context now; the old handle names no buffer
    any more. *)
Theorem setVertexData_success {T} (sizeofT Usage : Z)
    (o : VertexBufferImpl T) (d : list T) (g : GL.state) :
  conformant g ->
  handle o = 0 \/ is_Some (buffers g !! handle o) ->
  fst (setVertexData sizeofT Usage d (o, g)) = Return tt ->
  let o' := fst (snd (setVertexData sizeofT Usage d (o, g))) in
  let g' := snd (snd (setVertexData sizeofT Usage d (o, g))) in
  data o' = d
  /\ attributes o' = attributes o
  /\ buffers g !! handle o' = None
  /\ handle o' <> 0
  /\ handle o' <> handle o
  /\ is_Some (buffers g' !! handle o')
  /\ buffers g' !! handle o = None.
Proof.
  intros Hg Hown. rewrite setVertexData_run by apply Hg.
  destruct (handle o =? array_buffer_binding g); [discriminate|].
  destruct (upload_reports_oom g) eqn:Hup.
  { destruct (rebuffer_oom sizeofT Usage d o g Hup) as (g' & -> & _). discriminate. }
  destruct (rebuffer_ok sizeofT Usage d o g Hup) as (g' & v & -> & Hbuf & _).
  intros _. cbn [fst snd handle data attributes].
  pose proof (unused_name_unused g) as Hnew.
  pose proof (unused_name_nonzero g) as Hnz.
  assert (unused_name g <> handle o) as Hne.
  { intros Heq. destruct Hown as [H0 | [x Hx]]; [congruence|].
    rewrite <- Heq, Hnew in Hx. discriminate. }
  repeat split; try done.
  - rewrite Hbuf. destruct (handle o =? 0).
    + rewrite lookup_insert_eq. by eexists.
    + rewrite lookup_delete_ne by done. rewrite lookup_insert_eq. by eexists.
  - rewrite Hbuf. destruct (Z.eqb_spec (handle o) 0) as [H0|H0].
    + rewrite lookup_insert_ne by done. rewrite H0. apply Hg.
    + apply lookup_delete_eq.
Qed.

Lemma setVertexData_success_witness :
  let run := setVertexData 4 GL_STATIC_DRAW [70]
               (examples.manager [examples.position], examples.drawing []) in
  data (fst (snd run)) = [70]
  /\ attributes (fst (snd run)) = [examples.position]
  /\ buffers (examples.drawing []) !! handle (fst (snd run)) = None
  /\ handle (fst (snd run)) <> 0
  /\ handle (fst (snd run)) <> 1
  /\ is_Some (buffers (snd (snd run)) !! handle (fst (snd run)))
  /\ buffers (snd (snd run)) !! 1 = None.
Proof.
  apply (setVertexData_success 4 GL_STATIC_DRAW
           (examples.manager [examples.position]) [70] (examples.drawing []));
    [apply drawing_conformant | right; by eexists | reflexivity].
Defined.

(** C7.  In every conformant context, the array-buffer binding after
    the constructor from a vertex sequence and after [setVertexData] is
    the binding from before the call, whether the call returns or
    throws ([ResourceException] of the upload, [BindException] of a
    bound manager). *)
Theorem binding_restored {T} (sizeofT Usage : Z)
    (o : VertexBufferImpl T) (d : list T) (g : GL.state) :
  conformant g ->
  array_buffer_binding (snd (VertexBufferImpl_ctor sizeofT Usage d g))
  = array_buffer_binding g
  /\ array_buffer_binding (snd (snd (setVertexData sizeofT Usage d (o, g))))
     = array_buffer_binding g.
Proof.
  intros Hg. pose proof (to_GLuint_to_GLint _ (binding_GLuint g Hg)) as Hrt. split.
  - rewrite VertexBufferImpl_ctor_run.
    destruct (upload_reports_oom g); exact Hrt.
  - rewrite setVertexData_run by apply Hg.
    destruct (handle o =? array_buffer_binding g); [reflexivity|].
    rewrite rebuffer_run. destruct (upload_reports_oom g); exact Hrt.
Qed.

Lemma binding_restored_witness :
  array_buffer_binding
    (snd (VertexBufferImpl_ctor 4 GL_STATIC_DRAW examples.six (examples.drawing [true])))
  = 2
  /\ array_buffer_binding
       (snd (snd (setVertexData 4 GL_STATIC_DRAW examples.six
                    (examples.manager [], examples.drawing [true]))))
     = 2.
Proof.
  apply (binding_restored 4 GL_STATIC_DRAW (examples.manager []) examples.six
           (examples.drawing [true])), drawing_conformant.
Defined.

(** *** The claims on bind *)

(** With a program current, [bind] has bound the buffer when it comes
    to the descriptors. *)
Lemma bind_unfold {T} (o : VertexBufferImpl T) (g : GL.state) :
  bind (o, g) =
  if to_GLint (current_program g) =? 0
  then (Throw BindException, (o, g))
  else for_each (fun ptr => gl (T:=T) (Attribute_bind ptr
                                         (to_GLuint (to_GLint (current_program g)))))
                (attributes o) (o, set_array_buffer_binding (handle o) g).
Proof.
  unfold bind, mbind at 1, gl at 1. cbn [fst snd].
  rewrite glGetIntegerv_program. unfold mbind at 1.
  destruct (to_GLint (current_program g) =? 0); [reflexivity|].
  unfold ret at 1. unfold mbind at 1, this at 1, gets. cbn [fst snd].
  unfold mbind at 1, gl at 1. cbn [fst snd]. rewrite glBindBuffer_array.
  unfold mbind at 1, this at 1, gets. cbn [fst snd]. reflexivity.
Qed.

Lemma bind_run {T} (o : VertexBufferImpl T) (g : GL.state) :
  is_GLuint (current_program g) ->
  current_program g <> 0 ->
  bind (o, g) =
  for_each (fun ptr => gl (T:=T) (Attribute_bind ptr (current_program g)))
           (attributes o) (o, set_array_buffer_binding (handle o) g).
Proof.
  intros Hp Hne. rewrite bind_unfold.
  by rewrite (eqb_to_GLint_zero _ Hp), (proj2 (Z.eqb_neq _ _) Hne),
    (to_GLuint_to_GLint _ Hp).
Qed.

(** C6.  For every manager and every context: with no program current
    (current program handle 0), [bind] throws [BindException]; and in a
    conformant context with a program current, when some registered
    descriptor's name is not in the attribute table of that program,
    [bind] throws [AttributeNotFoundException]. *)
Theorem bind_failures {T} (o : VertexBufferImpl T) (g : GL.state) :
  (current_program g = 0 -> fst (bind (o, g)) = Throw BindException)
  /\ (conformant g ->
      current_program g <> 0 ->
      (exists a, a ∈ attributes o
                 /\ attribs g !! (current_program g, name (base a)) = None) ->
      fst (bind (o, g)) = Throw AttributeNotFoundException).
Proof.
  split.
  - intros Hp. by rewrite bind_no_program.
  - intros Hg Hp Hmissing. rewrite bind_run by (done || apply Hg).
    apply for_each_bind_missing; try done.
    cbn [attribs set_array_buffer_binding]. apply Hg.
Qed.

Lemma bind_failures_witness :
  fst (bind (examples.manager [examples.position; examples.colour], examples.idle))
  = Throw BindException
  /\ fst (bind (examples.manager [examples.position; examples.colour],
                examples.drawing []))
     = Throw AttributeNotFoundException.
Proof.
  split.
  - apply (proj1 (bind_failures _ examples.idle)). reflexivity.
  - apply (proj2 (bind_failures _ (examples.drawing []))).
    + apply drawing_conformant.
    + cbn. lia.
    + exists examples.colour. split; [|reflexivity].
      unfold examples.manager. cbn [attributes]. set_solver.
Defined.

(** C9.  For every manager and every context with no program current:
    [bind] throws [BindException] and the context after the call is the
    context from before, in every part (the array-buffer binding, the
    enabled slots, the configured slots); the manager is unchanged as
    well. *)
Theorem bind_without_program_changes_nothing {T}
    (o : VertexBufferImpl T) (g : GL.state) :
  current_program g = 0 ->
  bind (o, g) = (Throw BindException, (o, g)).
Proof. apply bind_no_program. Qed.

Lemma bind_without_program_changes_nothing_witness :
  bind (examples.manager [examples.position], examples.idle)
  = (Throw BindException, (examples.manager [examples.position], examples.idle)).
Proof.
  apply bind_without_program_changes_nothing. reflexivity.
Defined.

(** C8.  For every manager and every context, [resetAttributes]
    returns with the context untouched and the descriptor list empty
    (handle and data kept); and in every later conformant context with
    a program current, [bind] of that manager returns, makes the
    manager's buffer the bound one, and leaves the enabled slots and
    the configured slots exactly as they were: it enables and
    configures nothing. *)
Theorem resetAttributes_then_bind {T} (o : VertexBufferImpl T) (g : GL.state) :
  exists o',
    resetAttributes (o, g) = (Return tt, (o', g))
    /\ attributes o' = []
    /\ handle o' = handle o
    /\ data o' = data o
    /\ forall g1,
         conformant g1 ->
         current_program g1 <> 0 ->
         exists g2,
           bind (o', g1) = (Return tt, (o', g2))
           /\ array_buffer_binding g2 = handle o
           /\ enabled g2 = enabled g1
           /\ pointers g2 = pointers g1
           /\ buffers g2 = buffers g1.
Proof.
  eexists. split; [reflexivity|]. cbn [fst snd handle data attributes].
  repeat split.
  intros g1 Hg1 Hp. eexists. split.
  - rewrite bind_run by (done || apply Hg1). reflexivity.
  - repeat split.
Qed.

Lemma resetAttributes_then_bind_witness :
  exists o',
    resetAttributes (examples.manager [examples.position; examples.colour],
                     examples.idle)
    = (Return tt, (o', examples.idle))
    /\ exists g2,
         bind (o', examples.drawing []) = (Return tt, (o', g2))
         /\ enabled g2 = ∅
         /\ pointers g2 = ∅.
Proof.
  destruct (resetAttributes_then_bind
              (examples.manager [examples.position; examples.colour]) examples.idle)
    as (o' & Hreset & _ & _ & _ & Hbind).
  exists o'. split; [exact Hreset|].
  destruct (Hbind (examples.drawing []) (drawing_conformant [])) as (g2 & H1 & _ & H2 & H3 & _).
  - cbn. lia.
  - exists g2. repeat split; assumption.
Defined.

(** *** Attribute registration *)

Section Registration.

Lemma count_rule_checked size :
  spec.count_rule size = ((0 <? size) && (size <? 5)) || (size =? GL_BGRA).
Proof.
  unfold spec.count_rule, GL_BGRA.
  destruct (Z.eqb_spec size 1), (Z.eqb_spec size 2), (Z.eqb_spec size 3),
    (Z.eqb_spec size 4), (Z.eqb_spec size 32993),
    (Z.ltb_spec 0 size), (Z.ltb_spec size 5); cbn; try reflexivity; lia.
Qed.

Ltac case_checks :=
  repeat match goal with
         | |- context [Z.eqb ?a ?b] => destruct (Z.eqb a b)
         | |- context [Z.ltb ?a ?b] => destruct (Z.ltb a b)
         | |- context [Z.leb ?a ?b] => destruct (Z.leb a b)
         end;
  try reflexivity.

(** The checks of the base constructor are the shared rules. *)
Lemma AttributePointerBase_ctor_run {S} name size type stride offset normalized (x : S) :
  AttributePointerBase_ctor name size type stride offset normalized x =
  if spec.shared_rules size type normalized stride
  then (Return (MkBase name size type stride offset normalized), x)
  else (Throw InvalidAttributeSpec, x).
Proof.
  unfold spec.shared_rules. rewrite count_rule_checked.
  unfold AttributePointerBase_ctor, spec.stride_rule, spec.bgra_rule, spec.bgra_type,
    spec.packed_2_10_10_10_rule, spec.packed_10F_11F_11F_rule,
    InvalidAttributeSpec, mbind, dynamic_assert.
  case_checks.
Qed.

Lemma AttributePointer_ctor_run {S} name size type normalized stride offset (x : S) :
  AttributePointer_ctor name size type normalized stride offset x =
  if spec.float_rules_with_type size type normalized stride
  then (Return (AttributePointer (MkBase name size type stride offset normalized)), x)
  else (Throw InvalidAttributeSpec, x).
Proof.
  unfold AttributePointer_ctor, mbind at 1. rewrite AttributePointerBase_ctor_run.
  unfold spec.float_rules_with_type.
  destruct (spec.shared_rules size type normalized stride); [|reflexivity].
  unfold mbind, dynamic_assert, InvalidAttributeSpec. cbn [andb].
  change (_ || (type =? GL_UNSIGNED_INT_10F_11F_11F_REV)) with (spec.float_type type).
  destruct (spec.float_type type); reflexivity.
Qed.

Lemma AttributeIPointer_ctor_run {S} name size type stride offset (x : S) :
  AttributeIPointer_ctor name size type stride offset x =
  if spec.integer_rules size type stride
  then (Return (AttributeIPointer (MkBase name size type stride offset GL_FALSE)), x)
  else (Throw InvalidAttributeSpec, x).
Proof.
  unfold AttributeIPointer_ctor, mbind at 1. rewrite AttributePointerBase_ctor_run.
  unfold spec.integer_rules.
  destruct (spec.shared_rules size type GL_FALSE stride); [|reflexivity].
  unfold mbind, dynamic_assert, InvalidAttributeSpec. cbn [andb].
  change (_ || (type =? GL_UNSIGNED_INT)) with (spec.exact_integer_type type).
  destruct (spec.exact_integer_type type); reflexivity.
Qed.

Lemma AttributeLPointer_ctor_run {S} name size type stride offset (x : S) :
  AttributeLPointer_ctor name size type stride offset x =
  if spec.double_rules size type stride
  then (Return (AttributeLPointer (MkBase name size type stride offset GL_FALSE)), x)
  else (Throw InvalidAttributeSpec, x).
Proof.
  unfold AttributeLPointer_ctor, mbind at 1. rewrite AttributePointerBase_ctor_run.
  unfold spec.double_rules.
  destruct (spec.shared_rules size type GL_FALSE stride); [|reflexivity].
  unfold mbind, dynamic_assert, InvalidAttributeSpec. cbn [andb].
  destruct (type =? GL_DOUBLE); reflexivity.
Qed.

Lemma push_back_run {T} (a : Attribute) (o : VertexBufferImpl T) (g : GL.state) :
  push_back a (o, g)
  = (Return tt, (MkImpl (handle o) (data o) (attributes o ++ [a]), g)).
Proof. reflexivity. Qed.

Lemma addAttributePointer_run {T} (o : VertexBufferImpl T) (g : GL.state)
    name size type normalized stride offset :
  addAttributePointer name size type normalized stride offset (o, g)
  = if spec.float_rules_with_type size type normalized stride
    then (Return tt,
          (MkImpl (handle o) (data o)
                  (attributes o
                   ++ [AttributePointer (MkBase name size type stride offset normalized)]),
           g))
    else (Throw InvalidAttributeSpec, (o, g)).
Proof.
  unfold addAttributePointer, mbind at 1. rewrite AttributePointer_ctor_run.
  destruct (spec.float_rules_with_type size type normalized stride); reflexivity.
Qed.

Lemma addAttributeIPointer_run {T} (o : VertexBufferImpl T) (g : GL.state)
    name size type stride offset :
  addAttributeIPointer name size type stride offset (o, g)
  = if spec.integer_rules size type stride
    then (Return tt,
          (MkImpl (handle o) (data o)
                  (attributes o
                   ++ [AttributeIPointer (MkBase name size type stride offset GL_FALSE)]),
           g))
    else (Throw InvalidAttributeSpec, (o, g)).
Proof.
  unfold addAttributeIPointer, mbind at 1. rewrite AttributeIPointer_ctor_run.
  destruct (spec.integer_rules size type stride); reflexivity.
Qed.

Lemma addAttributeLPointer_run {T} (o : VertexBufferImpl T) (g : GL.state)
    name size stride offset :
  addAttributeLPointer name size stride offset (o, g)
  = if spec.double_rules size GL_DOUBLE stride
    then (Return tt,
          (MkImpl (handle o) (data o)
                  (attributes o
                   ++ [AttributeLPointer (MkBase name size GL_DOUBLE stride offset GL_FALSE)]),
           g))
    else (Throw InvalidAttributeSpec, (o, g)).
Proof.
  unfold addAttributeLPointer, mbind at 1. rewrite AttributeLPointer_ctor_run.
  destruct (spec.double_rules size GL_DOUBLE stride); reflexivity.
Qed.

End Registration.

(** C5 as the spec has it fails for the float family: the rules of
    section 4.1 hold for three components of type [GL_2_BYTES], not
    normalized, stride 12, yet [addAttributePointer] rejects the
    registration, because [GL_2_BYTES] is no type that
    [glVertexAttribPointer] accepts. *)
Lemma float_rules_do_not_suffice :
  spec.float_rules 3 GL_2_BYTES GL_FALSE 12 = true
  /\ addAttributePointer "position" 3 GL_2_BYTES GL_FALSE 12 0
       (examples.manager [], examples.blank)
     = (Throw InvalidAttributeSpec, (examples.manager [], examples.blank)).
Proof. split; reflexivity. Qed.

(** C5, amended.  For every manager, context and argument list:
    [addAttributePointer] appends the descriptor exactly when the shared
    rules hold (component count 1, 2, 3, 4 or [GL_BGRA]; stride not
    negative; [GL_BGRA] only with one of the three types and normalized
    [GL_TRUE]; the two 2-10-10-10 types only with 4 or [GL_BGRA]; the
    10F-11F-11F type only with 3) and, in addition, the type is one of
    the thirteen [glVertexAttribPointer] accepts; [addAttributeIPointer]
    exactly when the shared rules (with normalized false) hold and the
    type is one of the six exact-integer types; [addAttributeLPointer],
    which passes [GL_DOUBLE], exactly when the shared rules hold for
    it, and the constructor of the double family accepts no other type.
    Otherwise the call throws [InvalidAttributeSpec] with the manager
    and the context unchanged: no descriptor is appended. *)
Theorem registration_rules {T} (o : VertexBufferImpl T) (g : GL.state)
    (name : string) (size type normalized stride offset : Z) :
  addAttributePointer name size type normalized stride offset (o, g)
  = (if spec.float_rules_with_type size type normalized stride
     then (Return tt,
           (MkImpl (handle o) (data o)
                   (attributes o
                    ++ [AttributePointer (MkBase name size type stride offset normalized)]),
            g))
     else (Throw InvalidAttributeSpec, (o, g)))
  /\ addAttributeIPointer name size type stride offset (o, g)
     = (if spec.integer_rules size type stride
        then (Return tt,
              (MkImpl (handle o) (data o)
                      (attributes o
                       ++ [AttributeIPointer (MkBase name size type stride offset GL_FALSE)]),
               g))
        else (Throw InvalidAttributeSpec, (o, g)))
  /\ addAttributeLPointer name size stride offset (o, g)
     = (if spec.double_rules size GL_DOUBLE stride
        then (Return tt,
              (MkImpl (handle o) (data o)
                      (attributes o
                       ++ [AttributeLPointer (MkBase name size GL_DOUBLE stride offset GL_FALSE)]),
               g))
        else (Throw InvalidAttributeSpec, (o, g)))
  /\ AttributeLPointer_ctor name size type stride offset (o, g)
     = (if spec.double_rules size type stride
        then (Return (AttributeLPointer (MkBase name size type stride offset GL_FALSE)),
              (o, g))
        else (Throw InvalidAttributeSpec, (o, g))).
Proof.
  repeat split.
  - apply addAttributePointer_run.
  - apply addAttributeIPointer_run.
  - apply addAttributeLPointer_run.
  - apply AttributeLPointer_ctor_run.
Qed.

(** *** Who owns a buffer *)

Section Ownership.

Import lifecycle.

Context {T : Type} (sizeofT : Z) (Usage : Z).
Implicit Types (o : VertexBufferImpl T) (g : GL.state) (w : world (T:=T)).

(** [bind] keeps the manager and the buffers of the context. *)
Lemma Attribute_bind_buffers a p g :
  buffers (snd (Attribute_bind a p g)) = buffers g.
Proof.
  unfold Attribute_bind, getAttribLocation, mbind, dynamic_assert,
    glGetAttribLocation, gets.
  destruct (negb (p =? 0)); [|reflexivity]. unfold ret at 1. cbn beta iota.
  destruct (default (-1) (attribs g !! (p, name (base a))) =? -1); [reflexivity|].
  unfold ret at 1. cbn beta iota.
  destruct (default (-1) (attribs g !! (p, name (base a))) <? GL_MAX_VERTEX_ATTRIBS);
    [|reflexivity].
  unfold ret at 1, glEnableVertexAttribArray, modify. cbn beta iota.
  rewrite postBind_run. cbn [snd].
  destruct (layout.faults _ a); [|reflexivity].
  by rewrite (proj1 (record_error_keeps _ _)).
Qed.

Lemma Attribute_unbind_buffers a g :
  buffers (snd (Attribute_unbind a g)) = buffers g.
Proof.
  unfold Attribute_unbind, mbind at 1. rewrite glGetIntegerv_program.
  unfold getAttribLocation, mbind, dynamic_assert, glGetAttribLocation, gets.
  destruct (negb (_ =? 0)); [|reflexivity]. unfold ret at 1. cbn beta iota.
  destruct (_ =? -1); reflexivity.
Qed.

(** A loop of context calls that keep the buffers keeps the manager and
    the buffers. *)
Lemma for_each_frame (f : Attribute -> M GL.state unit) (l : list Attribute) o g r o' g' :
  (forall a g1, buffers (snd (f a g1)) = buffers g1) ->
  for_each (fun ptr => gl (T:=T) (f ptr)) l (o, g) = (r, (o', g')) ->
  o' = o /\ buffers g' = buffers g.
Proof.
  intros Hf. revert g. induction l as [|a l IH]; intros g Hrun.
  - by inversion Hrun.
  - cbn [for_each] in Hrun. unfold mbind at 1, gl at 1 in Hrun. cbn [fst snd] in Hrun.
    pose proof (Hf a g) as Ha.
    destruct (f a g) as [[[]|e] g1]; cbn [snd] in Ha.
    + rewrite <- Ha. by apply IH.
    + by inversion Hrun; subst.
Qed.

Lemma bind_frame o g r o' g' :
  bind (o, g) = (r, (o', g')) -> o' = o /\ buffers g' = buffers g.
Proof.
  rewrite bind_unfold. destruct (_ =? 0).
  - by inversion 1.
  - intros Hrun. apply for_each_frame in Hrun; [done|].
    intros a g1. apply Attribute_bind_buffers.
Qed.

Lemma unbind_frame o g r o' g' :
  unbind (o, g) = (r, (o', g')) -> o' = o /\ buffers g' = buffers g.
Proof.
  unfold unbind, mbind at 1, gl at 1. cbn [fst snd]. rewrite glBindBuffer_array.
  unfold mbind at 1, this at 1, gets. cbn [fst snd].
  intros Hrun. apply for_each_frame in Hrun; [done|].
  intros a g1. apply Attribute_unbind_buffers.
Qed.

(** What a member function does to the handle and to the buffers: it
    keeps both, or it installs the unused name and deletes the old
    handle. *)
Lemma run_effect c o g :
  let o' := fst (snd (run sizeofT Usage c (o, g))) in
  let g' := snd (snd (run sizeofT Usage c (o, g))) in
  (handle o' = handle o /\ buffers g' = buffers g)
  \/ (handle o' = unused_name g
      /\ exists v, buffers g' = if handle o =? 0
                                then <[unused_name g:=v]> (buffers g)
                                else delete (handle o) (<[unused_name g:=v]> (buffers g))).
Proof.
  destruct c as [d|n s t nm st off|n s t st off|n s st off| | |]; cbn [run].
  - rewrite setVertexData_unfold. destruct (handle o =? _); [by left|].
    destruct (upload_reports_oom g) eqn:Hup.
    + destruct (rebuffer_oom sizeofT Usage d o g Hup) as (g' & -> & Hb & _). by left.
    + destruct (rebuffer_ok sizeofT Usage d o g Hup) as (g' & v & -> & Hb & _).
      right. split; [done|]. by exists v.
  - rewrite addAttributePointer_run.
    destruct (spec.float_rules_with_type s t nm st); by left.
  - rewrite addAttributeIPointer_run.
    destruct (spec.integer_rules s t st); by left.
  - rewrite addAttributeLPointer_run.
    destruct (spec.double_rules s GL_DOUBLE st); by left.
  - left. destruct (bind (o, g)) as [r [o' g']] eqn:Hrun.
    apply bind_frame in Hrun as [-> Hb]. by split.
  - left. destruct (unbind (o, g)) as [r [o' g']] eqn:Hrun.
    apply unbind_frame in Hrun as [-> Hb]. by split.
  - by left.
Qed.

Lemma ctor_effect (d : list T) g :
  (exists v, buffers (snd (VertexBufferImpl_ctor sizeofT Usage d g))
             = <[unused_name g:=v]> (buffers g))
  /\ (fst (VertexBufferImpl_ctor sizeofT Usage d g) = Throw ResourceException
      \/ fst (VertexBufferImpl_ctor sizeofT Usage d g)
         = Return (MkImpl (unused_name g) d [])).
Proof.
  rewrite VertexBufferImpl_ctor_run.
  destruct (uploaded_effect sizeofT Usage d g) as (Hbuf & _ & _).
  destruct (upload_reports_oom g); (split; [exact Hbuf|]); [by left|by right].
Qed.

Lemma glDeleteBuffers_buffers n g :
  buffers (snd (glDeleteBuffers n g))
  = if n =? 0 then buffers g else delete n (buffers g).
Proof.
  unfold glDeleteBuffers, modify. cbn [snd].
  destruct (n =? 0); [reflexivity|].
  destruct (array_buffer_binding g =? n); reflexivity.
Qed.

Lemma is_Some_insert (m : gmap Z (option Z)) n v j :
  is_Some (m !! j) -> is_Some (<[n:=v]> m !! j).
Proof. rewrite lookup_insert_is_Some'. auto. Qed.

(** A name that a live manager holds is not the unused name. *)
Lemma held_not_unused w i o :
  handles_allocated w -> live w !! i = Some o -> handle o <> 0 ->
  handle o <> unused_name (ctx w).
Proof.
  intros Halloc Hi Hnz Heq. destruct (Halloc i o Hi) as [H0 | [x Hx]]; [done|].
  rewrite Heq, unused_name_unused in Hx. discriminate.
Qed.

Lemma step_keeps_ownership w w' :
  step sizeofT Usage w w' ->
  sole_owner w /\ handles_allocated w ->
  sole_owner w' /\ handles_allocated w'.
Proof.
  intros Hstep [Hsole Halloc].
  destruct Hstep as [w k d r g' Hk Hctor | w i k rhs Hi Hk
                    | w i o c r o' g' Hi Hrun | w i o r g' Hi Hdtor | w g' Hmono].
  - (* construction *)
    destruct (ctor_effect d (ctx w)) as ([v Hbuf] & Hr).
    rewrite Hctor in Hbuf, Hr. cbn [fst snd] in Hbuf, Hr.
    destruct Hr as [-> | ->]; cbn [constructed]; split.
    + exact Hsole.
    + intros i o Ho. cbn [live ctx] in *.
      destruct (Halloc i o Ho) as [H0 | Hs]; [by left|right].
      rewrite Hbuf. by apply is_Some_insert.
    + intros i j oi oj. cbn [live].
      destruct (decide (i = k)) as [->|Hik], (decide (j = k)) as [->|Hjk];
        [done| | |].
      * rewrite lookup_insert_eq, lookup_insert_ne by done.
        intros [= <-] Hj Heq Hnz. cbn [handle] in *.
        destruct (held_not_unused w j oj Halloc Hj); congruence.
      * rewrite lookup_insert_eq, lookup_insert_ne by done.
        intros Hi' [= <-] Heq Hnz. cbn [handle] in *.
        destruct (held_not_unused w i oi Halloc Hi'); congruence.
      * rewrite !lookup_insert_ne by done. apply Hsole.
    + intros i o. cbn [live ctx].
      destruct (decide (i = k)) as [->|Hik].
      * rewrite lookup_insert_eq. intros [= <-]. right. cbn [handle].
        rewrite Hbuf, lookup_insert_eq. by eexists.
      * rewrite lookup_insert_ne by done. intros Ho.
        destruct (Halloc i o Ho) as [H0 | Hs]; [by left|right].
        rewrite Hbuf. by apply is_Some_insert.
  - (* move construction *)
    assert (i <> k) as Hik by (intros ->; congruence).
    cbn [VertexBufferImpl_move fst snd]. split.
    + intros a b oa ob. cbn [live].
      destruct (decide (a = k)) as [->|Hak], (decide (b = k)) as [->|Hbk]; [done| | |].
      * rewrite lookup_insert_eq, lookup_insert_ne by done.
        intros [= <-]. cbn [handle].
        destruct (decide (b = i)) as [->|Hbi].
        -- rewrite lookup_insert_eq. intros [= <-]. cbn [handle]. congruence.
        -- rewrite lookup_insert_ne by done. intros Hb Heq Hnz.
           destruct Hbi. symmetry. by apply (Hsole i b rhs ob).
      * rewrite lookup_insert_eq, lookup_insert_ne by done.
        intros Ha [= <-]. cbn [handle]. revert Ha.
        destruct (decide (a = i)) as [->|Hai].
        -- rewrite lookup_insert_eq. intros [= <-]. cbn [handle]. congruence.
        -- rewrite lookup_insert_ne by done. intros Ha Heq Hnz.
           destruct Hai. by apply (Hsole a i oa rhs).
      * rewrite !(lookup_insert_ne _ k) by done.
        destruct (decide (a = i)) as [->|Hai], (decide (b = i)) as [->|Hbi]; [done| | |].
        -- rewrite lookup_insert_eq. intros [= <-]. cbn [handle]. congruence.
        -- rewrite lookup_insert_eq, lookup_insert_ne by done.
           intros Ha [= <-]. cbn [handle]. congruence.
        -- rewrite !lookup_insert_ne by done. apply Hsole.
    + intros a oa. cbn [live ctx].
      destruct (decide (a = k)) as [->|Hak].
      * rewrite lookup_insert_eq. intros [= <-]. cbn [handle]. by apply (Halloc i).
      * rewrite lookup_insert_ne by done.
        destruct (decide (a = i)) as [->|Hai].
        -- rewrite lookup_insert_eq. intros [= <-]. by left.
        -- rewrite lookup_insert_ne by done. apply Halloc.
  - (* a member function *)
    pose proof (run_effect c o (ctx w)) as He. rewrite Hrun in He.
    cbn [fst snd] in He. destruct He as [[Hh Hb] | [Hh [v Hb]]]; split.
    + intros a b oa ob. cbn [live].
      destruct (decide (a = i)) as [->|Hai], (decide (b = i)) as [->|Hbi]; [done| | |].
      * rewrite lookup_insert_eq, lookup_insert_ne by done.
        intros [= <-] Hb' Heq Hnz. apply (Hsole i b o ob); congruence.
      * rewrite lookup_insert_eq, lookup_insert_ne by done.
        intros Ha [= <-] Heq Hnz. apply (Hsole a i oa o); congruence.
      * rewrite !lookup_insert_ne by done. apply Hsole.
    + intros a oa. cbn [live ctx]. rewrite Hb.
      destruct (decide (a = i)) as [->|Hai].
      * rewrite lookup_insert_eq. intros [= <-]. rewrite Hh. by apply (Halloc i).
      * rewrite lookup_insert_ne by done. apply Halloc.
    + intros a b oa ob. cbn [live].
      destruct (decide (a = i)) as [->|Hai], (decide (b = i)) as [->|Hbi]; [done| | |].
      * rewrite lookup_insert_eq, lookup_insert_ne by done.
        intros [= <-] Hb' Heq Hnz.
        destruct (held_not_unused w b ob Halloc Hb'); congruence.
      * rewrite lookup_insert_eq, lookup_insert_ne by done.
        intros Ha [= <-] Heq Hnz.
        destruct (held_not_unused w a oa Halloc Ha); congruence.
      * rewrite !lookup_insert_ne by done. apply Hsole.
    + intros a oa. cbn [live ctx]. rewrite Hb.
      destruct (decide (a = i)) as [->|Hai].
      * rewrite lookup_insert_eq. intros [= <-]. right. rewrite Hh.
        destruct (Z.eqb_spec (handle o) 0) as [H0|H0].
        -- rewrite lookup_insert_eq. by eexists.
        -- rewrite lookup_delete_ne by (by apply (held_not_unused w i o)).
           rewrite lookup_insert_eq. by eexists.
      * rewrite lookup_insert_ne by done. intros Ha.
        destruct (decide (handle oa = 0)) as [Hz|Hnz]; [by left|right].
        destruct (Halloc a oa Ha) as [?|Hs]; [done|].
        destruct (handle o =? 0); [by apply is_Some_insert|].
        rewrite lookup_delete_ne; [by apply is_Some_insert|].
        intros Heq. destruct Hai. apply (Hsole a i oa o); congruence.
  - (* destruction *)
    assert (buffers g' = if handle o =? 0 then buffers (ctx w)
                         else delete (handle o) (buffers (ctx w))) as Hb.
    { unfold VertexBufferImpl_dtor in Hdtor.
      rewrite <- glDeleteBuffers_buffers. by rewrite Hdtor. }
    split.
    + intros a b oa ob. cbn [live].
      intros [_ Ha]%lookup_delete_Some [_ Hb']%lookup_delete_Some. by apply Hsole.
    + intros a oa. cbn [live ctx]. intros [Hai Ha]%lookup_delete_Some.
      destruct (decide (handle oa = 0)) as [Hz|Hnz]; [by left|right].
      destruct (Halloc a oa Ha) as [?|Hs]; [done|]. rewrite Hb.
      destruct (handle o =? 0); [done|].
      rewrite lookup_delete_ne; [done|].
      intros Heq. destruct Hai. symmetry. apply (Hsole a i oa o); congruence.
  - (* the code around *)
    split; [exact Hsole|].
    intros a oa Ha. cbn [live ctx] in *.
    destruct (Halloc a oa Ha) as [?|Hs]; [by left|right; by apply Hmono].
Qed.

(** Every reachable world keeps both invariants. *)
Lemma reachable_ownership g0 w :
  reachable sizeofT Usage g0 w -> sole_owner w /\ handles_allocated w.
Proof.
  unfold reachable. revert w. apply rtc_ind_r.
  - split.
    + intros i j oi oj Hi. cbn [live] in Hi. by rewrite lookup_empty in Hi.
    + intros i o Hi. cbn [live] in Hi. by rewrite lookup_empty in Hi.
  - intros y z _ Hstep IH. by apply (step_keeps_ownership y z).
Qed.

End Ownership.

(** C10.  For every manager [rhs] and every context: the object that
    move construction creates has the handle, the data and the
    descriptor list of [rhs]; what is left of [rhs] has handle 0, and
    destroying it returns with the context exactly as it was, so the
    transferred buffer is not released.  And in every world a program
    reaches from a context without managers (by constructing, move
    constructing, calling member functions and destroying managers,
    with the code around leaving the buffers it finds), two live
    managers never hold the same non-zero handle. *)
Theorem move_transfers_ownership {T} (sizeofT Usage : Z)
    (rhs : VertexBufferImpl T) (g : GL.state) :
  (handle (fst (VertexBufferImpl_move rhs)) = handle rhs
   /\ data (fst (VertexBufferImpl_move rhs)) = data rhs
   /\ attributes (fst (VertexBufferImpl_move rhs)) = attributes rhs
   /\ handle (snd (VertexBufferImpl_move rhs)) = 0
   /\ VertexBufferImpl_dtor (snd (VertexBufferImpl_move rhs)) g = (Return tt, g))
  /\ forall g0 (w : lifecycle.world (T:=T)),
       lifecycle.reachable sizeofT Usage g0 w -> lifecycle.sole_owner w.
Proof.
  split; [repeat split|].
  intros g0 w Hw. by destruct (reachable_ownership sizeofT Usage g0 w Hw).
Qed.

Lemma move_transfers_ownership_witness :
  VertexBufferImpl_dtor (snd (VertexBufferImpl_move (examples.manager [examples.position])))
                        (examples.drawing [])
  = (Return tt, examples.drawing [])
  /\ lifecycle.sole_owner examples.moved.
Proof.
  split.
  - apply (proj1 (move_transfers_ownership 4 GL_STATIC_DRAW
                    (examples.manager [examples.position]) (examples.drawing []))).
  - apply (proj2 (move_transfers_ownership 4 GL_STATIC_DRAW
                    (examples.manager []) examples.blank) examples.blank).
    unfold lifecycle.reachable.
    apply (rtc_l _ _ examples.built); [|apply rtc_once].
    + apply (lifecycle.step_construct 4 GL_STATIC_DRAW examples.start 0%nat examples.six);
        [reflexivity | apply surjective_pairing].
    + apply (lifecycle.step_move 4 GL_STATIC_DRAW examples.built 0%nat 1%nat
               (examples.manager [])); reflexivity.
Defined.

(** ** Further properties of the code *)

Local Set Warnings "-clear-no-such-hyp".

(** *** Bind and unbind, when they go through *)

Section BindUnbind.

Import layout.

Context {T : Type}.
Implicit Types (o : VertexBufferImpl T) (g : GL.state) (l : list Attribute).

Lemma state_eq g1 g2 :
  buffers g1 = buffers g2 ->
  array_buffer_binding g1 = array_buffer_binding g2 ->
  current_program g1 = current_program g2 ->
  attribs g1 = attribs g2 ->
  enabled g1 = enabled g2 ->
  pointers g1 = pointers g2 ->
  error g1 = error g2 ->
  oom_script g1 = oom_script g2 ->
  g1 = g2.
Proof. destruct g1, g2. cbn. by intros -> -> -> -> -> -> -> ->. Qed.

Lemma known_slot table p a :
  (forall q n loc, table !! (q, n) = Some loc -> 0 <= loc < GL_MAX_VERTEX_ATTRIBS) ->
  is_Some (table !! (p, name (base a))) ->
  table !! (p, name (base a)) = Some (slot table p a)
  /\ 0 <= slot table p a < GL_MAX_VERTEX_ATTRIBS.
Proof.
  intros Hslots [loc Hloc]. unfold slot. rewrite Hloc. split; [done|].
  by apply (Hslots _ _ _ Hloc).
Qed.

(** One descriptor whose name the program knows: its slot is enabled,
    and configured for the bound buffer unless the call raises error
    condition (9). *)
Lemma Attribute_bind_known a p g :
  p <> 0 ->
  (forall q n loc, attribs g !! (q, n) = Some loc -> 0 <= loc < GL_MAX_VERTEX_ATTRIBS) ->
  is_Some (attribs g !! (p, name (base a))) ->
  Attribute_bind a p g
  = (Return tt,
     if faults (array_buffer_binding g) a
     then record_error GL_INVALID_OPERATION
            (set_enabled (fun e => {[slot (attribs g) p a]} ∪ e) g)
     else set_pointers (insert (slot (attribs g) p a) (array_of a (array_buffer_binding g)))
            (set_enabled (fun e => {[slot (attribs g) p a]} ∪ e) g)).
Proof.
  intros Hp Hslots Hknown.
  destruct (known_slot _ p a Hslots Hknown) as [Hloc Hrange].
  unfold Attribute_bind, getAttribLocation, mbind, dynamic_assert.
  apply Z.eqb_neq in Hp. rewrite Hp. cbn.
  unfold glGetAttribLocation, gets. rewrite Hloc. cbn [default from_option]. unfold id.
  replace (slot (attribs g) p a =? -1) with false by (symmetry; apply Z.eqb_neq; lia).
  unfold ret at 1.
  replace (slot (attribs g) p a <? GL_MAX_VERTEX_ATTRIBS) with true
    by (symmetry; apply Z.ltb_lt; lia).
  cbn [ret]. unfold glEnableVertexAttribArray, modify. by rewrite postBind_run.
Qed.

(** With a buffer bound no descriptor raises error condition (9). *)
Lemma effective_bound b l : b <> 0 -> effective b l = l.
Proof.
  intros Hb. induction l as [|a l IH]; [done|]. cbn. unfold faults.
  rewrite (proj2 (Z.eqb_neq _ _) Hb). cbn. by rewrite IH.
Qed.

Lemma flag_all_pending b l e : e <> GL_NO_ERROR -> flag_all b l e = e.
Proof.
  revert e. induction l as [|a l IH]; intros e He; [done|]. cbn.
  rewrite (proj2 (Z.eqb_neq _ _) He). destruct (faults b a); by apply IH.
Qed.

Lemma flag_all_cases b l e :
  flag_all b l e = e \/ flag_all b l e = GL_INVALID_OPERATION.
Proof.
  revert e. induction l as [|a l IH]; intros e; [by left|]. cbn.
  destruct (faults b a); [|apply IH].
  destruct (e =? GL_NO_ERROR); [|apply IH].
  right. by apply flag_all_pending.
Qed.

Lemma flag_all_twice b l e : flag_all b l (flag_all b l e) = flag_all b l e.
Proof.
  destruct (flag_all_cases b l e) as [H | H].
  - by rewrite !H.
  - rewrite H. by apply flag_all_pending.
Qed.

(** The loop of [bind] over descriptors the program knows. *)
Lemma for_each_bind_known p l o g :
  p <> 0 ->
  (forall q n loc, attribs g !! (q, n) = Some loc -> 0 <= loc < GL_MAX_VERTEX_ATTRIBS) ->
  all_known (attribs g) p l ->
  for_each (fun ptr => gl (T:=T) (Attribute_bind ptr p)) l (o, g)
  = (Return tt,
     (o, State (buffers g) (array_buffer_binding g) (current_program g) (attribs g)
               (slots (attribs g) p l ∪ enabled g)
               (configure_all (attribs g) p (array_buffer_binding g)
                              (effective (array_buffer_binding g) l) (pointers g))
               (flag_all (array_buffer_binding g) l (error g)) (oom_script g))).
Proof.
  intros Hp. revert g. induction l as [|a l IH]; intros g Hslots Hknown.
  - cbn. unfold ret. do 2 f_equal. apply state_eq; cbn; try done.
    unfold slots. cbn. set_solver.
  - cbn [for_each]. unfold mbind at 1, gl at 1. cbn [fst snd].
    rewrite Attribute_bind_known; [|done|done|apply Hknown; set_solver].
    cbn [effective flag_all].
    destruct (faults (array_buffer_binding g) a).
    + unfold record_error. cbn [error set_enabled].
      destruct (error g =? GL_NO_ERROR).
      * rewrite IH; [|done|intros a' Ha'; apply Hknown; set_solver].
        do 2 f_equal. apply state_eq; cbn; try done.
        unfold slots. cbn. set_solver.
      * rewrite IH; [|done|intros a' Ha'; apply Hknown; set_solver].
        do 2 f_equal. apply state_eq; cbn; try done.
        unfold slots. cbn. set_solver.
    + rewrite IH; [|done|intros a' Ha'; apply Hknown; set_solver].
      do 2 f_equal. apply state_eq; cbn; try done.
      unfold slots. cbn. set_solver.
Qed.

Lemma for_each_app {S A} (f : A -> M S unit) (l1 l2 : list A) (s : S) :
  for_each f (l1 ++ l2) s = (for_each f l1 ;;; for_each f l2) s.
Proof.
  revert s. induction l1 as [|x l1 IH]; intros s; [done|].
  cbn [app for_each]. unfold mbind in *.
  destruct (f x s) as [[[]|e] s1]; [apply IH|done].
Qed.

(** Configurations: a slot outside the list keeps its entry; inside the
    list the entry does not depend on what was there before. *)
Lemma configure_all_other table p b l m loc :
  loc ∉ slots table p l -> configure_all table p b l m !! loc = m !! loc.
Proof.
  revert m. induction l as [|a l IH]; intros m Hloc; [done|].
  unfold slots in Hloc. cbn in Hloc.
  apply not_elem_of_union in Hloc as [Ha Hl]. apply not_elem_of_singleton in Ha.
  cbn. unfold configure_all in IH. rewrite IH by done. by rewrite lookup_insert_ne.
Qed.

Lemma configure_all_inside table p b l m m' loc :
  loc ∈ slots table p l ->
  configure_all table p b l m !! loc = configure_all table p b l m' !! loc.
Proof.
  revert m m'. induction l as [|a l IH]; intros m m' Hloc.
  - unfold slots in Hloc. cbn in Hloc. by apply elem_of_empty in Hloc.
  - cbn. destruct (decide (loc ∈ slots table p l)) as [Hin|Hout].
    + by apply IH.
    + unfold slots in Hloc. cbn in Hloc.
      apply elem_of_union in Hloc as [->%elem_of_singleton|Hin]; [|done].
      pose proof (configure_all_other table p b l) as Hother.
      unfold configure_all in Hother. rewrite !Hother by done.
      by rewrite !lookup_insert_eq.
Qed.

Lemma configure_all_twice table p b l m :
  configure_all table p b l (configure_all table p b l m) = configure_all table p b l m.
Proof.
  apply map_eq. intros loc. destruct (decide (loc ∈ slots table p l)) as [Hin|Hout].
  - by apply configure_all_inside.
  - by rewrite configure_all_other.
Qed.

Lemma configure_all_last table p b l1 a l2 m :
  slot table p a ∉ slots table p l2 ->
  configure_all table p b (l1 ++ a :: l2) m !! slot table p a = Some (array_of a b).
Proof.
  intros Hlater. unfold configure_all. rewrite foldl_app. cbn.
  pose proof (configure_all_other table p b l2) as Hother.
  unfold configure_all in Hother. rewrite Hother by done. apply lookup_insert_eq.
Qed.

(** [bind] in full, when the program knows every descriptor. *)
Lemma bind_known o g :
  is_GLuint (current_program g) ->
  current_program g <> 0 ->
  (forall q n loc, attribs g !! (q, n) = Some loc -> 0 <= loc < GL_MAX_VERTEX_ATTRIBS) ->
  all_known (attribs g) (current_program g) (attributes o) ->
  bind (o, g)
  = (Return tt,
     (o, State (buffers g) (handle o) (current_program g) (attribs g)
               (slots (attribs g) (current_program g) (attributes o) ∪ enabled g)
               (configure_all (attribs g) (current_program g) (handle o)
                              (effective (handle o) (attributes o)) (pointers g))
               (flag_all (handle o) (attributes o) (error g)) (oom_script g))).
Proof.
  intros Hp Hne Hslots Hknown. rewrite bind_run by done.
  by rewrite for_each_bind_known.
Qed.

(** [bind] in full, when the first unknown name comes after [l1]. *)
Lemma bind_unknown o g l1 a l2 :
  is_GLuint (current_program g) ->
  current_program g <> 0 ->
  (forall q n loc, attribs g !! (q, n) = Some loc -> 0 <= loc < GL_MAX_VERTEX_ATTRIBS) ->
  attributes o = l1 ++ a :: l2 ->
  all_known (attribs g) (current_program g) l1 ->
  attribs g !! (current_program g, name (base a)) = None ->
  bind (o, g)
  = (Throw AttributeNotFoundException,
     (o, State (buffers g) (handle o) (current_program g) (attribs g)
               (slots (attribs g) (current_program g) l1 ∪ enabled g)
               (configure_all (attribs g) (current_program g) (handle o)
                              (effective (handle o) l1) (pointers g))
               (flag_all (handle o) l1 (error g)) (oom_script g))).
Proof.
  intros Hp Hne Hslots Hsplit Hknown Hmissing. rewrite bind_run by done.
  rewrite Hsplit, for_each_app. unfold mbind at 1.
  rewrite for_each_bind_known by done.
  cbn [for_each]. unfold mbind at 1, gl at 1. cbn [fst snd].
  by rewrite Attribute_bind_missing.
Qed.

(** One descriptor in [unbind]. *)
Lemma Attribute_unbind_known a g :
  is_GLuint (current_program g) ->
  current_program g <> 0 ->
  (forall q n loc, attribs g !! (q, n) = Some loc -> 0 <= loc < GL_MAX_VERTEX_ATTRIBS) ->
  is_Some (attribs g !! (current_program g, name (base a))) ->
  Attribute_unbind a g
  = (Return tt,
     set_enabled (fun e => e ∖ {[slot (attribs g) (current_program g) a]}) g).
Proof.
  intros Hp Hne Hslots Hknown.
  destruct (known_slot _ _ a Hslots Hknown) as [Hloc Hrange].
  unfold Attribute_unbind, mbind at 1. rewrite glGetIntegerv_program.
  rewrite (to_GLuint_to_GLint _ Hp).
  unfold getAttribLocation, mbind, dynamic_assert.
  apply Z.eqb_neq in Hne. rewrite Hne. cbn.
  unfold glGetAttribLocation, gets. rewrite Hloc. cbn [default from_option]. unfold id.
  replace (slot (attribs g) (current_program g) a =? -1) with false
    by (symmetry; apply Z.eqb_neq; lia).
  reflexivity.
Qed.

Lemma for_each_unbind_known l o g :
  is_GLuint (current_program g) ->
  current_program g <> 0 ->
  (forall q n loc, attribs g !! (q, n) = Some loc -> 0 <= loc < GL_MAX_VERTEX_ATTRIBS) ->
  all_known (attribs g) (current_program g) l ->
  for_each (fun ptr => gl (T:=T) (Attribute_unbind ptr)) l (o, g)
  = (Return tt,
     (o, State (buffers g) (array_buffer_binding g) (current_program g) (attribs g)
               (enabled g ∖ slots (attribs g) (current_program g) l)
               (pointers g) (error g) (oom_script g))).
Proof.
  revert g. induction l as [|a l IH]; intros g Hp Hne Hslots Hknown.
  - cbn. unfold ret. do 2 f_equal. apply state_eq; cbn; try done.
    unfold slots. cbn. set_solver.
  - cbn [for_each]. unfold mbind at 1, gl at 1. cbn [fst snd].
    rewrite Attribute_unbind_known; [|done|done|done|apply Hknown; set_solver].
    rewrite IH; [|done|done|done|intros a' Ha'; apply Hknown; set_solver].
    do 2 f_equal. apply state_eq; cbn; try done.
    unfold slots. cbn. set_solver.
Qed.

Lemma unbind_known o g :
  is_GLuint (current_program g) ->
  current_program g <> 0 ->
  (forall q n loc, attribs g !! (q, n) = Some loc -> 0 <= loc < GL_MAX_VERTEX_ATTRIBS) ->
  all_known (attribs g) (current_program g) (attributes o) ->
  unbind (o, g)
  = (Return tt,
     (o, State (buffers g) 0 (current_program g) (attribs g)
               (enabled g ∖ slots (attribs g) (current_program g) (attributes o))
               (pointers g) (error g) (oom_script g))).
Proof.
  intros Hp Hne Hslots Hknown.
  unfold unbind, mbind at 1, gl at 1. cbn [fst snd]. rewrite glBindBuffer_array.
  unfold mbind at 1, this at 1, gets. cbn [fst snd].
  by rewrite for_each_unbind_known.
Qed.

End BindUnbind.

Lemma studio_conformant : conformant examples.studio.
Proof.
  split; try (unfold is_GLuint; cbn; lia).
  - reflexivity.
  - intros p n loc. cbn [attribs examples.studio].
    intros [[_ <-] | [_ H]]%lookup_insert_Some; [unfold GL_MAX_VERTEX_ATTRIBS; lia|].
    apply lookup_insert_Some in H as [[_ <-] | [_ H]];
      [unfold GL_MAX_VERTEX_ATTRIBS; lia|].
    by rewrite lookup_empty in H.
Qed.

Lemma studio_knows :
  layout.all_known (attribs examples.studio) 3 [examples.position; examples.colour].
Proof.
  intros a [->|[->|[]%elem_of_nil]%elem_of_cons]%elem_of_cons; by eexists.
Qed.

Lemma studio_checked :
  forall a, a ∈ [examples.position; examples.colour] -> layout.checked a = true.
Proof.
  intros a [->|[->|[]%elem_of_nil]%elem_of_cons]%elem_of_cons; reflexivity.
Qed.

(** X1.  For a manager that holds a buffer (its handle is not 0) and
    whose descriptors passed the checks of their constructors, in a
    conformant context with a program current that knows the name of
    every registered descriptor: [bind] returns with the manager
    unchanged; the manager's buffer is the bound one; the enabled slots
    are the former ones and the slots of the descriptors; a descriptor
    that no later descriptor shares its slot with has left exactly its
    own parameters, with the manager's buffer, in its slot; every other
    slot keeps its configuration; no buffer is created or deleted. *)
Theorem bind_applies_descriptors {T} (o : VertexBufferImpl T) (g : GL.state) :
  conformant g ->
  handle o <> 0 ->
  (forall a, a ∈ attributes o -> layout.checked a = true) ->
  current_program g <> 0 ->
  layout.all_known (attribs g) (current_program g) (attributes o) ->
  exists g',
    bind (o, g) = (Return tt, (o, g'))
    /\ array_buffer_binding g' = handle o
    /\ enabled g' = layout.slots (attribs g) (current_program g) (attributes o) ∪ enabled g
    /\ (forall l1 a l2,
          attributes o = l1 ++ a :: l2 ->
          layout.slot (attribs g) (current_program g) a
            ∉ layout.slots (attribs g) (current_program g) l2 ->
          pointers g' !! layout.slot (attribs g) (current_program g) a
          = Some (layout.array_of a (handle o)))
    /\ (forall loc,
          loc ∉ layout.slots (attribs g) (current_program g) (attributes o) ->
          pointers g' !! loc = pointers g !! loc)
    /\ buffers g' = buffers g.
Proof.
  intros Hg Hh _ Hne Hknown. eexists. split.
  { apply bind_known; [apply Hg|done|apply Hg|done]. }
  cbn [array_buffer_binding enabled pointers buffers].
  rewrite (effective_bound _ _ Hh). repeat split.
  - intros l1 a l2 -> Hlater. by apply configure_all_last.
  - intros loc Hloc. by apply configure_all_other.
Qed.

Lemma bind_applies_descriptors_witness :
  exists g',
    bind (examples.manager [examples.position; examples.colour], examples.studio)
    = (Return tt, (examples.manager [examples.position; examples.colour], g'))
    /\ array_buffer_binding g' = 1
    /\ enabled g' = {[0]} ∪ {[1]} ∪ {[7]}
    /\ pointers g' !! 1 = Some (layout.array_of examples.colour 1).
Proof.
  destruct (bind_applies_descriptors
              (examples.manager [examples.position; examples.colour]) examples.studio
              studio_conformant) as (g' & Hrun & Hb & He & Hlast & _).
  - cbn. lia.
  - apply studio_checked.
  - cbn. lia.
  - apply studio_knows.
  - exists g'. repeat split; [exact Hrun|exact Hb| |].
    + rewrite He. vm_compute. reflexivity.
    + apply (Hlast [examples.position] examples.colour []); [reflexivity|].
      unfold layout.slots. cbn [fmap list_fmap list_to_set]. apply not_elem_of_empty.
Defined.

(** X2.  Under the same conditions a second [bind] right after the
    first changes nothing: it returns and leaves the context of the
    first. *)
Theorem bind_idempotent {T} (o : VertexBufferImpl T) (g : GL.state) :
  conformant g ->
  current_program g <> 0 ->
  layout.all_known (attribs g) (current_program g) (attributes o) ->
  exists g',
    bind (o, g) = (Return tt, (o, g'))
    /\ bind (o, g') = (Return tt, (o, g')).
Proof.
  intros Hg Hne Hknown. eexists. split.
  { apply bind_known; [apply Hg|done|apply Hg|done]. }
  rewrite bind_known; cbn [current_program attribs]; [|apply Hg|done|apply Hg|done].
  do 2 f_equal. apply state_eq; cbn; try done.
  - set_solver.
  - apply configure_all_twice.
  - apply flag_all_twice.
Qed.

Lemma bind_idempotent_witness :
  exists g',
    bind (examples.manager [examples.position; examples.colour], examples.studio)
    = (Return tt, (examples.manager [examples.position; examples.colour], g'))
    /\ bind (examples.manager [examples.position; examples.colour], g')
       = (Return tt, (examples.manager [examples.position; examples.colour], g')).
Proof.
  apply bind_idempotent; [apply studio_conformant | cbn; lia | apply studio_knows].
Defined.

(** X3.  [bind] does not undo what it did before it throws.  For a
    manager that holds a buffer (its handle is not 0) and whose
    descriptors passed the checks of their constructors, in a
    conformant context with a program current: when the first
    descriptor whose name the program does not know comes after the
    descriptors [l1], [bind] throws [AttributeNotFoundException] with
    the manager's buffer bound and exactly the descriptors of [l1]
    enabled and configured; the descriptors after it are not applied. *)
Theorem bind_stops_at_unknown {T} (o : VertexBufferImpl T) (g : GL.state)
    (l1 : list Attribute) (a : Attribute) (l2 : list Attribute) :
  conformant g ->
  handle o <> 0 ->
  (forall a', a' ∈ attributes o -> layout.checked a' = true) ->
  current_program g <> 0 ->
  attributes o = l1 ++ a :: l2 ->
  layout.all_known (attribs g) (current_program g) l1 ->
  attribs g !! (current_program g, name (base a)) = None ->
  exists g',
    bind (o, g) = (Throw AttributeNotFoundException, (o, g'))
    /\ array_buffer_binding g' = handle o
    /\ enabled g' = layout.slots (attribs g) (current_program g) l1 ∪ enabled g
    /\ pointers g'
       = layout.configure_all (attribs g) (current_program g) (handle o) l1 (pointers g)
    /\ buffers g' = buffers g.
Proof.
  intros Hg Hh _ Hne Hsplit Hknown Hmissing. eexists. split.
  { apply (bind_unknown o g l1 a l2); try done; apply Hg. }
  cbn [array_buffer_binding enabled pointers buffers].
  rewrite (effective_bound _ _ Hh). repeat split.
Qed.

Lemma studio_checked_three :
  forall a, a ∈ [examples.position; examples.normal; examples.colour] ->
            layout.checked a = true.
Proof.
  intros a [->|[->|[->|[]%elem_of_nil]%elem_of_cons]%elem_of_cons]%elem_of_cons;
    reflexivity.
Qed.

Lemma bind_stops_at_unknown_witness :
  exists g',
    bind (examples.manager [examples.position; examples.normal; examples.colour],
          examples.studio)
    = (Throw AttributeNotFoundException,
       (examples.manager [examples.position; examples.normal; examples.colour], g'))
    /\ array_buffer_binding g' = 1
    /\ enabled g' = layout.slots (attribs examples.studio) 3 [examples.position]
                    ∪ enabled examples.studio
    /\ pointers g'
       = layout.configure_all (attribs examples.studio) 3 1 [examples.position] ∅
    /\ buffers g' = buffers examples.studio.
Proof.
  apply (bind_stops_at_unknown
           (examples.manager [examples.position; examples.normal; examples.colour])
           examples.studio [examples.position] examples.normal [examples.colour]).
  - apply studio_conformant.
  - cbn. lia.
  - apply studio_checked_three.
  - cbn. lia.
  - reflexivity.
  - intros a [->|[]%elem_of_nil]%elem_of_cons. by eexists.
  - reflexivity.
Defined.

(** X4.  In a conformant context with a program current that knows the
    name of every registered descriptor, [unbind] returns with the
    manager unchanged, no buffer bound (binding 0), and the slots of the
    descriptors disabled; the configurations of the slots and the
    buffers stay as they are. *)
Theorem unbind_disables_descriptors {T} (o : VertexBufferImpl T) (g : GL.state) :
  conformant g ->
  current_program g <> 0 ->
  layout.all_known (attribs g) (current_program g) (attributes o) ->
  exists g',
    unbind (o, g) = (Return tt, (o, g'))
    /\ array_buffer_binding g' = 0
    /\ enabled g' = enabled g ∖ layout.slots (attribs g) (current_program g) (attributes o)
    /\ pointers g' = pointers g
    /\ buffers g' = buffers g.
Proof.
  intros Hg Hne Hknown. eexists. split.
  { apply unbind_known; [apply Hg|done|apply Hg|done]. }
  repeat split.
Qed.

Lemma unbind_disables_descriptors_witness :
  exists g',
    unbind (examples.manager [examples.position; examples.colour], examples.studio)
    = (Return tt, (examples.manager [examples.position; examples.colour], g'))
    /\ array_buffer_binding g' = 0
    /\ enabled g' = enabled examples.studio
                    ∖ layout.slots (attribs examples.studio) 3
                        [examples.position; examples.colour]
    /\ pointers g' = pointers examples.studio
    /\ buffers g' = buffers examples.studio.
Proof.
  apply (unbind_disables_descriptors
           (examples.manager [examples.position; examples.colour]) examples.studio);
    [apply studio_conformant | cbn; lia | apply studio_knows].
Defined.

(** X5.  [bind] followed by [unbind] under the same program: both
    return; afterwards no buffer is bound (the binding from before
    [bind] is not brought back), the slots of the descriptors are
    disabled, also those that were enabled before [bind], and the
    configurations [bind] wrote are still in place. *)
Theorem bind_then_unbind {T} (o : VertexBufferImpl T) (g : GL.state) :
  conformant g ->
  current_program g <> 0 ->
  layout.all_known (attribs g) (current_program g) (attributes o) ->
  exists g1 g2,
    bind (o, g) = (Return tt, (o, g1))
    /\ unbind (o, g1) = (Return tt, (o, g2))
    /\ array_buffer_binding g2 = 0
    /\ enabled g2 = enabled g ∖ layout.slots (attribs g) (current_program g) (attributes o)
    /\ pointers g2 = pointers g1
    /\ buffers g2 = buffers g.
Proof.
  intros Hg Hne Hknown. eexists. eexists. split.
  { apply bind_known; [apply Hg|done|apply Hg|done]. }
  split.
  { apply unbind_known; cbn [current_program attribs]; [apply Hg|done|apply Hg|done]. }
  cbn. repeat split. set_solver.
Qed.

Lemma bind_then_unbind_witness :
  exists g1 g2,
    bind (examples.manager [examples.position; examples.colour], examples.studio)
    = (Return tt, (examples.manager [examples.position; examples.colour], g1))
    /\ unbind (examples.manager [examples.position; examples.colour], g1)
       = (Return tt, (examples.manager [examples.position; examples.colour], g2))
    /\ array_buffer_binding g2 = 0
    /\ enabled g2 = enabled examples.studio
                    ∖ layout.slots (attribs examples.studio) 3
                        [examples.position; examples.colour]
    /\ pointers g2 = pointers g1
    /\ buffers g2 = buffers examples.studio.
Proof.
  apply (bind_then_unbind
           (examples.manager [examples.position; examples.colour]) examples.studio);
    [apply studio_conformant | cbn; lia | apply studio_knows].
Defined.

(** X6.  [unbind] is declared [noexcept], yet with a descriptor
    registered it throws: the failed assertion of [getAttribLocation]
    when no program is current, [AttributeNotFoundException] when the
    current program does not know the first descriptor's name.  By then
    the array-buffer binding is already 0. *)
Theorem unbind_can_throw {T} (o : VertexBufferImpl T) (g : GL.state)
    (a : Attribute) (l : list Attribute) :
  attributes o = a :: l ->
  (current_program g = 0 ->
   unbind (o, g) = (Throw DynamicAssertion, (o, set_array_buffer_binding 0 g)))
  /\ (conformant g ->
      current_program g <> 0 ->
      attribs g !! (current_program g, name (base a)) = None ->
      unbind (o, g) = (Throw AttributeNotFoundException, (o, set_array_buffer_binding 0 g))).
Proof.
  intros Hattr. split.
  - intros Hp. unfold unbind, mbind at 1, gl at 1. cbn [fst snd].
    rewrite glBindBuffer_array. unfold mbind at 1, this at 1, gets. cbn [fst snd].
    rewrite Hattr. cbn [for_each]. unfold mbind at 1, gl at 1. cbn [fst snd].
    unfold Attribute_unbind, mbind at 1. rewrite glGetIntegerv_program.
    cbn [current_program set_array_buffer_binding]. rewrite Hp. reflexivity.
  - intros Hg Hne Hmissing. unfold unbind, mbind at 1, gl at 1. cbn [fst snd].
    rewrite glBindBuffer_array. unfold mbind at 1, this at 1, gets. cbn [fst snd].
    rewrite Hattr. cbn [for_each]. unfold mbind at 1, gl at 1. cbn [fst snd].
    unfold Attribute_unbind, mbind at 1. rewrite glGetIntegerv_program.
    cbn [current_program set_array_buffer_binding].
    rewrite (to_GLuint_to_GLint _ (program_GLuint g Hg)).
    unfold getAttribLocation, mbind, dynamic_assert.
    rewrite (proj2 (Z.eqb_neq _ _) Hne). cbn.
    unfold glGetAttribLocation, gets. cbn [attribs set_array_buffer_binding].
    by rewrite Hmissing.
Qed.

Lemma unbind_can_throw_witness :
  unbind (examples.manager [examples.position], examples.idle)
  = (Throw DynamicAssertion,
     (examples.manager [examples.position], set_array_buffer_binding 0 examples.idle))
  /\ unbind (examples.manager [examples.normal], examples.studio)
     = (Throw AttributeNotFoundException,
        (examples.manager [examples.normal], set_array_buffer_binding 0 examples.studio)).
Proof.
  split.
  - apply (proj1 (unbind_can_throw (examples.manager [examples.position]) examples.idle
                    examples.position [] eq_refl)). reflexivity.
  - apply (proj2 (unbind_can_throw (examples.manager [examples.normal]) examples.studio
                    examples.normal [] eq_refl)).
    + apply studio_conformant.
    + cbn. lia.
    + reflexivity.
Defined.

(** *** Construction, re-upload and destruction *)

Section Buffers.

Context {T : Type} (sizeofT : Z) (Usage : Z).
Implicit Types (o : VertexBufferImpl T) (g : GL.state) (d : list T).

(** The data store after an upload that found the flag clear and the
    driver willing. *)
Lemma glBufferData_store sz us g :
  array_buffer_binding g <> 0 ->
  error g = GL_NO_ERROR ->
  upload_reports_oom g = false ->
  buffers (snd (glBufferData GL_ARRAY_BUFFER sz us g))
  = <[array_buffer_binding g:=Some sz]> (buffers g).
Proof.
  intros Hb He. apply Z.eqb_neq in Hb.
  unfold glBufferData, modify, upload_reports_oom. cbn [snd].
  rewrite Hb, He. cbn.
  destruct (oom_script g) as [|[] rest]; [done|discriminate|done].
Qed.

(** The upload under a pending error that is not out-of-memory while
    the driver runs out of memory: no data store. *)
Lemma glBufferData_masked sz us g rest :
  array_buffer_binding g <> 0 ->
  error g <> GL_NO_ERROR ->
  oom_script g = true :: rest ->
  buffers (snd (glBufferData GL_ARRAY_BUFFER sz us g)) = buffers g.
Proof.
  intros Hb He Hs. apply Z.eqb_neq in Hb. apply Z.eqb_neq in He.
  unfold glBufferData, modify, record_error. cbn [snd].
  rewrite Hb, Hs. cbn [error set_oom_script]. by rewrite He.
Qed.

Lemma ctor_returns d g :
  upload_reports_oom g = false ->
  exists g' v,
    VertexBufferImpl_ctor sizeofT Usage d g = (Return (MkImpl (unused_name g) d []), g')
    /\ buffers g' = <[unused_name g:=v]> (buffers g)
    /\ array_buffer_binding g' = to_GLuint (to_GLint (array_buffer_binding g))
    /\ error g' = GL_NO_ERROR
    /\ (error g = GL_NO_ERROR -> v = Some (byte_size sizeofT d)).
Proof.
  intros Hok. rewrite VertexBufferImpl_ctor_run, Hok.
  destruct (uploaded_effect sizeofT Usage d g) as ([v Hbuf] & _ & _).
  eexists.
  exists (default v (buffers (snd (glBufferData GL_ARRAY_BUFFER (byte_size sizeofT d) Usage
            (set_array_buffer_binding (unused_name g)
               (set_buffers (insert (unused_name g) None) g)))) !! unused_name g)).
  split; [reflexivity|]. cbn [buffers array_buffer_binding error set_array_buffer_binding set_error].
  rewrite Hbuf, lookup_insert_eq. cbn [default from_option]. unfold id.
  repeat split. intros He.
  assert (Some v = Some (Some (byte_size sizeofT d))) as [= ->]; [|done].
  rewrite <- (lookup_insert_eq (buffers g) (unused_name g) v), <- Hbuf.
  rewrite glBufferData_store; cbn [array_buffer_binding set_array_buffer_binding
    error set_buffers oom_script buffers]; try done.
  - by rewrite lookup_insert_eq.
  - apply unused_name_nonzero.
Qed.

End Buffers.

(** X7.  In a conformant context in which the upload reports no
    out-of-memory, the constructor from a vertex sequence returns a
    manager with exactly that data, no descriptors, and a handle that is
    not zero and was not in use; afterwards that handle names a buffer,
    every other name is as before, one more buffer is allocated, the
    array-buffer binding is the one from before and the error flag is
    clear; when the flag was clear on entry the new buffer has a data
    store of [sizeof(T) * data.size()] bytes. *)
Theorem ctor_creates_buffer {T} (sizeofT Usage : Z) (d : list T) (g : GL.state) :
  conformant g ->
  upload_reports_oom g = false ->
  exists g',
    VertexBufferImpl_ctor sizeofT Usage d g = (Return (MkImpl (unused_name g) d []), g')
    /\ unused_name g <> 0
    /\ buffers g !! unused_name g = None
    /\ is_Some (buffers g' !! unused_name g)
    /\ (forall n, n <> unused_name g -> buffers g' !! n = buffers g !! n)
    /\ allocation_count g' = S (allocation_count g)
    /\ array_buffer_binding g' = array_buffer_binding g
    /\ error g' = GL_NO_ERROR
    /\ (error g = GL_NO_ERROR ->
        buffers g' !! unused_name g = Some (Some (sizeofT * Z.of_nat (length d)))).
Proof.
  intros Hg Hok.
  destruct (ctor_returns sizeofT Usage d g Hok) as (g' & v & Hrun & Hbuf & Hbind & Herr & Hv).
  exists g'. split; [exact Hrun|].
  split; [apply unused_name_nonzero|]. split; [apply unused_name_unused|].
  rewrite Hbuf. repeat split.
  - rewrite lookup_insert_eq. by eexists.
  - intros n Hn. by rewrite lookup_insert_ne.
  - unfold allocation_count. rewrite Hbuf.
    apply map_size_insert_None, unused_name_unused.
  - rewrite Hbind. apply to_GLuint_to_GLint, Hg.
  - exact Herr.
  - intros He. rewrite (Hv He). apply lookup_insert_eq.
Qed.

Lemma ctor_creates_buffer_witness :
  exists g',
    VertexBufferImpl_ctor 4 GL_STATIC_DRAW examples.six examples.studio
    = (Return (MkImpl (unused_name examples.studio) examples.six []), g')
    /\ allocation_count g' = S (allocation_count examples.studio)
    /\ array_buffer_binding g' = 2
    /\ buffers g' !! unused_name examples.studio = Some (Some 24).
Proof.
  destruct (ctor_creates_buffer 4 GL_STATIC_DRAW examples.six examples.studio
              studio_conformant eq_refl)
    as (g' & Hrun & _ & _ & _ & _ & Hcount & Hbind & _ & Hstore).
  exists g'. repeat split; [exact Hrun|exact Hcount|exact Hbind|].
  apply Hstore. reflexivity.
Defined.

(** X8.  Construction followed by destruction gives the buffers back:
    whenever the constructor returns a manager, destroying that manager
    in the context the constructor left returns, and the buffers of the
    context are exactly those from before the construction. *)
Theorem ctor_then_dtor {T} (sizeofT Usage : Z) (d : list T) (g : GL.state)
    (o : VertexBufferImpl T) (g' : GL.state) :
  VertexBufferImpl_ctor sizeofT Usage d g = (Return o, g') ->
  exists g'',
    VertexBufferImpl_dtor o g' = (Return tt, g'')
    /\ buffers g'' = buffers g
    /\ allocation_count g'' = allocation_count g.
Proof.
  intros Hrun.
  destruct (upload_reports_oom g) eqn:Hup.
  { destruct (VertexBufferImpl_ctor_oom sizeofT Usage d g Hup) as (g1 & H1 & _).
    rewrite H1 in Hrun. discriminate. }
  destruct (ctor_returns sizeofT Usage d g Hup) as (g1 & v & H1 & Hbuf & _).
  rewrite H1 in Hrun. injection Hrun as <- <-.
  eexists. split; [reflexivity|].
  assert (buffers (snd (glDeleteBuffers (unused_name g) g1)) = buffers g) as Hback.
  { rewrite glDeleteBuffers_buffers.
    rewrite (proj2 (Z.eqb_neq _ _) (unused_name_nonzero g)), Hbuf.
    apply delete_insert_id, unused_name_unused. }
  unfold VertexBufferImpl_dtor. cbn [handle].
  unfold allocation_count. unfold glDeleteBuffers, modify in *. cbn [snd] in *.
  by rewrite Hback.
Qed.

Lemma ctor_then_dtor_witness :
  exists g'',
    VertexBufferImpl_dtor
      (MkImpl (unused_name examples.studio) examples.six [])
      (snd (VertexBufferImpl_ctor 4 GL_STATIC_DRAW examples.six examples.studio))
    = (Return tt, g'')
    /\ buffers g'' = buffers examples.studio
    /\ allocation_count g'' = allocation_count examples.studio.
Proof.
  apply (ctor_then_dtor 4 GL_STATIC_DRAW examples.six examples.studio).
  vm_compute. reflexivity.
Defined.

(** X9.  A re-upload never changes how many buffers are allocated: for
    a manager whose handle names a buffer of a conformant context, the
    allocation count after [setVertexData] is the count from before,
    whether the call returns, throws [BindException] or throws
    [ResourceException]. *)
Theorem setVertexData_keeps_allocation_count {T} (sizeofT Usage : Z)
    (o : VertexBufferImpl T) (d : list T) (g : GL.state) :
  conformant g ->
  is_Some (buffers g !! handle o) ->
  allocation_count (snd (snd (setVertexData sizeofT Usage d (o, g))))
  = allocation_count g.
Proof.
  intros Hg Hown. rewrite setVertexData_run by apply Hg.
  destruct (handle o =? array_buffer_binding g); [reflexivity|].
  destruct (upload_reports_oom g) eqn:Hup.
  - destruct (rebuffer_oom sizeofT Usage d o g Hup) as (g' & -> & Hbuf & _).
    unfold allocation_count. cbn [snd]. by rewrite Hbuf.
  - destruct (rebuffer_ok sizeofT Usage d o g Hup) as (g' & v & -> & Hbuf & _).
    unfold allocation_count. cbn [snd]. rewrite Hbuf.
    assert (handle o <> 0) as Hnz.
    { intros H0. rewrite H0, (zero_unused g Hg) in Hown. by destruct Hown. }
    assert (handle o <> unused_name g) as Hne.
    { intros Heq. rewrite Heq, unused_name_unused in Hown. by destruct Hown. }
    rewrite (proj2 (Z.eqb_neq _ _) Hnz).
    rewrite map_size_delete_Some by (rewrite lookup_insert_ne; done).
    by rewrite map_size_insert_None by apply unused_name_unused.
Qed.

Lemma setVertexData_keeps_allocation_count_witness :
  allocation_count
    (snd (snd (setVertexData 4 GL_STATIC_DRAW [70]
                 (examples.manager [examples.position], examples.studio))))
  = allocation_count examples.studio.
Proof.
  apply setVertexData_keeps_allocation_count; [apply studio_conformant | by eexists].
Defined.

Lemma pending_conformant e script : conformant (examples.pending e script).
Proof.
  split; try (unfold is_GLuint; cbn; lia).
  - reflexivity.
  - intros p n loc. cbn [attribs examples.pending].
    intros [[_ <-] | [_ H]]%lookup_insert_Some; [unfold GL_MAX_VERTEX_ATTRIBS; lia|].
    apply lookup_insert_Some in H as [[_ <-] | [_ H]];
      [unfold GL_MAX_VERTEX_ATTRIBS; lia|].
    by rewrite lookup_empty in H.
Qed.

(** X10.  The upload check reads whatever error is pending, since the
    code does not clear the flag before the upload.  With
    [GL_OUT_OF_MEMORY] already pending the constructor throws
    [ResourceException] whatever the driver does.  With another error
    pending, a re-upload on which the driver runs out of memory is not
    noticed: [setVertexData] of an unbound manager returns, the manager
    holds the new handle, that buffer has no data store, and the old
    buffer is deleted. *)
Theorem pending_error_decides_upload {T} (sizeofT Usage : Z)
    (o : VertexBufferImpl T) (d : list T) (g : GL.state) :
  conformant g ->
  (error g = GL_OUT_OF_MEMORY ->
   fst (VertexBufferImpl_ctor sizeofT Usage d g) = Throw ResourceException)
  /\ (forall rest,
        error g <> GL_NO_ERROR ->
        error g <> GL_OUT_OF_MEMORY ->
        oom_script g = true :: rest ->
        handle o <> array_buffer_binding g ->
        is_Some (buffers g !! handle o) ->
        exists g',
          setVertexData sizeofT Usage d (o, g)
          = (Return tt, (MkImpl (unused_name g) d (attributes o), g'))
          /\ buffers g' !! unused_name g = Some None
          /\ buffers g' !! handle o = None).
Proof.
  intros Hg. split.
  - intros He. rewrite VertexBufferImpl_ctor_run.
    unfold upload_reports_oom. rewrite He. reflexivity.
  - intros rest He1 He2 Hs Hfree Hown.
    assert (upload_reports_oom g = false) as Hup.
    { unfold upload_reports_oom.
      rewrite (proj2 (Z.eqb_neq _ _) He1). by apply Z.eqb_neq. }
    assert (handle o <> 0) as Hnz.
    { intros H0. rewrite H0, (zero_unused g Hg) in Hown. by destruct Hown. }
    assert (handle o <> unused_name g) as Hne.
    { intros Heq. rewrite Heq, unused_name_unused in Hown. by destruct Hown. }
    rewrite setVertexData_run by apply Hg.
    rewrite (proj2 (Z.eqb_neq _ _) Hfree), rebuffer_run, Hup.
    eexists. split; [reflexivity|].
    cbn [buffers set_array_buffer_binding].
    rewrite glDeleteBuffers_buffers, (proj2 (Z.eqb_neq _ _) Hnz).
    cbn [buffers set_error].
    rewrite (glBufferData_masked _ _ _ rest);
      cbn [array_buffer_binding set_array_buffer_binding error set_buffers
           oom_script buffers]; [|apply unused_name_nonzero|done|done].
    split.
    + rewrite lookup_delete_ne by done. apply lookup_insert_eq.
    + apply lookup_delete_eq.
Qed.

Lemma pending_error_decides_upload_witness :
  fst (VertexBufferImpl_ctor 4 GL_STATIC_DRAW examples.six
         (examples.pending GL_OUT_OF_MEMORY []))
  = Throw ResourceException
  /\ exists g',
       setVertexData 4 GL_STATIC_DRAW [70]
         (examples.manager [], examples.pending GL_INVALID_ENUM [true])
       = (Return tt,
          (MkImpl (unused_name (examples.pending GL_INVALID_ENUM [true])) [70] [], g'))
       /\ buffers g' !! unused_name (examples.pending GL_INVALID_ENUM [true]) = Some None
       /\ buffers g' !! 1 = None.
Proof.
  split.
  - apply (proj1 (pending_error_decides_upload 4 GL_STATIC_DRAW (examples.manager [])
                    examples.six (examples.pending GL_OUT_OF_MEMORY [])
                    (pending_conformant _ _))).
    reflexivity.
  - apply (proj2 (pending_error_decides_upload 4 GL_STATIC_DRAW (examples.manager [])
                    [70] (examples.pending GL_INVALID_ENUM [true])
                    (pending_conformant _ _)) []).
    + discriminate.
    + discriminate.
    + reflexivity.
    + cbn. lia.
    + by eexists.
Defined.

(** X11.  The scope of a [VertexBufferBindHelper]: whatever the block
    under the helper does to the context, including binding other
    buffers or throwing, it runs with the helper's buffer bound, its
    outcome is the outcome of the scope, and on leaving the scope the
    array-buffer binding of a conformant context is the one from before
    the helper was constructed. *)
Theorem helper_scope_restores {A} (h : Z)
    (body : VertexBufferBindHelper -> M GL.state A) (g : GL.state) :
  conformant g ->
  let entered := body (MkHelper (to_GLint (array_buffer_binding g)))
                      (set_array_buffer_binding h g) in
  scoped (VertexBufferBindHelper_ctor h) VertexBufferBindHelper_dtor body g
  = (fst entered, set_array_buffer_binding (array_buffer_binding g) (snd entered)).
Proof.
  intros Hg. cbn zeta.
  unfold scoped, VertexBufferBindHelper_ctor, VertexBufferBindHelper_dtor, mbind.
  rewrite glGetIntegerv_binding, glBindBuffer_array. unfold ret at 1. cbn beta iota.
  destruct (body _ _) as [r g2]. cbn [preserved fst snd].
  rewrite glBindBuffer_array.
  by rewrite (to_GLuint_to_GLint _ (binding_GLuint g Hg)).
Qed.

Lemma helper_scope_restores_witness :
  scoped (VertexBufferBindHelper_ctor 1) VertexBufferBindHelper_dtor
         (fun _ => glBindBuffer GL_ARRAY_BUFFER 9 ;;; throw (A:=unit) ResourceException)
         examples.studio
  = (Throw ResourceException, examples.studio).
Proof.
  pose proof (helper_scope_restores 1
                (fun _ => glBindBuffer GL_ARRAY_BUFFER 9 ;;; throw (A:=unit) ResourceException)
                examples.studio studio_conformant) as H.
  rewrite H. reflexivity.
Defined.

Lemma blank_conformant : conformant examples.blank.
Proof.
  split; try (unfold is_GLuint; cbn; lia).
  - reflexivity.
  - intros p n loc. cbn [attribs examples.blank]. by rewrite lookup_empty.
Qed.

(** X12.  What is left of a manager after a move has handle 0, and 0 is
    also what the context reports when no buffer is bound: with nothing
    bound, [setVertexData] on the moved-from manager throws
    [BindException] ("actively bound") and changes nothing.  With some
    buffer bound and an upload that reports no out-of-memory it returns:
    the moved-from manager gets the data and a new buffer of its own,
    and one more buffer is allocated. *)
Theorem moved_from_reupload {T} (sizeofT Usage : Z)
    (rhs : VertexBufferImpl T) (d : list T) (g : GL.state) :
  conformant g ->
  (array_buffer_binding g = 0 ->
   setVertexData sizeofT Usage d (snd (VertexBufferImpl_move rhs), g)
   = (Throw BindException, (snd (VertexBufferImpl_move rhs), g)))
  /\ (array_buffer_binding g <> 0 ->
      upload_reports_oom g = false ->
      exists g',
        setVertexData sizeofT Usage d (snd (VertexBufferImpl_move rhs), g)
        = (Return tt, (MkImpl (unused_name g) d [], g'))
        /\ is_Some (buffers g' !! unused_name g)
        /\ allocation_count g' = S (allocation_count g)).
Proof.
  intros Hg. cbn [VertexBufferImpl_move snd]. split.
  - intros Hb. rewrite setVertexData_run by apply Hg. cbn [handle].
    by rewrite Hb.
  - intros Hb Hup. rewrite setVertexData_run by apply Hg. cbn [handle].
    rewrite (proj2 (Z.eqb_neq 0 _)) by done.
    destruct (rebuffer_ok sizeofT Usage d (MkImpl 0 [] []) g Hup)
      as (g' & v & -> & Hbuf & _).
    cbn [handle attributes] in *. exists g'. split; [done|].
    unfold allocation_count. rewrite Hbuf. cbn. split.
    + rewrite lookup_insert_eq. by eexists.
    + apply map_size_insert_None, unused_name_unused.
Qed.

Lemma moved_from_reupload_witness :
  setVertexData 4 GL_STATIC_DRAW [70]
    (snd (VertexBufferImpl_move (examples.manager [examples.position])), examples.blank)
  = (Throw BindException,
     (snd (VertexBufferImpl_move (examples.manager [examples.position])), examples.blank))
  /\ exists g',
       setVertexData 4 GL_STATIC_DRAW [70]
         (snd (VertexBufferImpl_move (examples.manager [examples.position])),
          examples.studio)
       = (Return tt, (MkImpl (unused_name examples.studio) [70] [], g'))
       /\ is_Some (buffers g' !! unused_name examples.studio)
       /\ allocation_count g' = S (allocation_count examples.studio).
Proof.
  split.
  - apply (proj1 (moved_from_reupload 4 GL_STATIC_DRAW
                    (examples.manager [examples.position]) [70] examples.blank
                    (blank_conformant))).
    reflexivity.
  - apply (proj2 (moved_from_reupload 4 GL_STATIC_DRAW
                    (examples.manager [examples.position]) [70] examples.studio
                    studio_conformant)).
    + cbn. lia.
    + reflexivity.
Defined.

(** X13.  Resetting the descriptors between [bind] and [unbind] leaves
    the slots enabled: after a [bind] that went through and
    [resetAttributes], [unbind] returns (it would even with no program
    current) and unbinds the buffer, but every slot [bind] enabled is
    still enabled. *)
Theorem reset_between_bind_and_unbind {T} (o : VertexBufferImpl T) (g : GL.state) :
  conformant g ->
  current_program g <> 0 ->
  layout.all_known (attribs g) (current_program g) (attributes o) ->
  exists g1 o0 g2,
    bind (o, g) = (Return tt, (o, g1))
    /\ resetAttributes (o, g1) = (Return tt, (o0, g1))
    /\ unbind (o0, g1) = (Return tt, (o0, g2))
    /\ array_buffer_binding g2 = 0
    /\ enabled g2 = layout.slots (attribs g) (current_program g) (attributes o) ∪ enabled g
    /\ pointers g2 = pointers g1.
Proof.
  intros Hg Hne Hknown. eexists. eexists. eexists. split.
  { apply bind_known; [apply Hg|done|apply Hg|done]. }
  split; [reflexivity|]. split; [reflexivity|]. repeat split.
Qed.

Lemma reset_between_bind_and_unbind_witness :
  exists g1 o0 g2,
    bind (examples.manager [examples.position; examples.colour], examples.studio)
    = (Return tt, (examples.manager [examples.position; examples.colour], g1))
    /\ resetAttributes (examples.manager [examples.position; examples.colour], g1)
       = (Return tt, (o0, g1))
    /\ unbind (o0, g1) = (Return tt, (o0, g2))
    /\ array_buffer_binding g2 = 0
    /\ enabled g2 = layout.slots (attribs examples.studio) 3
                      [examples.position; examples.colour]
                    ∪ enabled examples.studio
    /\ pointers g2 = pointers g1.
Proof.
  apply (reset_between_bind_and_unbind
           (examples.manager [examples.position; examples.colour]) examples.studio);
    [apply studio_conformant | cbn; lia | apply studio_knows].
Defined.

(** *** Attribute lookup and registration, in closed form *)

(** X14.  [getAttribLocation] never changes the context.  It fails the
    assertion for program handle 0; for another handle it throws
    [AttributeNotFoundException] when the table has no slot for the
    name; and whenever it returns a slot, the handle is not 0, the slot
    is not -1 and it is the table's slot for the name. *)
Theorem getAttribLocation_cases (handle : Z) (name : string) (g : GL.state) :
  snd (getAttribLocation handle name g) = g
  /\ (handle = 0 -> fst (getAttribLocation handle name g) = Throw DynamicAssertion)
  /\ (handle <> 0 -> attribs g !! (handle, name) = None ->
      fst (getAttribLocation handle name g) = Throw AttributeNotFoundException)
  /\ (forall rv, fst (getAttribLocation handle name g) = Return rv ->
      handle <> 0 /\ rv <> -1 /\ attribs g !! (handle, name) = Some rv).
Proof.
  unfold getAttribLocation, mbind, dynamic_assert, glGetAttribLocation, gets.
  destruct (Z.eqb_spec handle 0) as [H0|H0]; cbn.
  - split; [done|]. split; [done|]. split; [done|]. by intros rv.
  - destruct (attribs g !! (handle, name)) as [loc|] eqn:Hloc; cbn.
    + destruct (Z.eqb_spec loc (-1)) as [Hm|Hm]; cbn.
      * split; [done|]. split; [done|]. split; [done|]. by intros rv.
      * split; [done|]. split; [done|]. split; [done|]. by intros rv [= <-].
    + split; [done|]. split; [done|]. split; [done|]. by intros rv.
Qed.

Lemma getAttribLocation_cases_witness :
  getAttribLocation 3 "colour" examples.studio = (Return 1, examples.studio)
  /\ fst (getAttribLocation 0 "colour" examples.studio) = Throw DynamicAssertion
  /\ fst (getAttribLocation 3 "normal" examples.studio) = Throw AttributeNotFoundException.
Proof.
  destruct (getAttribLocation_cases 3 "colour" examples.studio) as (Hs & _ & _ & _).
  destruct (getAttribLocation_cases 0 "colour" examples.studio) as (_ & H0 & _ & _).
  destruct (getAttribLocation_cases 3 "normal" examples.studio) as (_ & _ & Hn & _).
  split; [|split].
  - rewrite <- Hs at 2. reflexivity.
  - apply H0. reflexivity.
  - apply Hn; [lia | reflexivity].
Defined.

Ltac rules_to_Prop H :=
  unfold spec.integer_rules, spec.double_rules, spec.float_rules_with_type,
    spec.shared_rules, spec.count_rule, spec.stride_rule,
    spec.bgra_rule, spec.bgra_type, spec.packed_2_10_10_10_rule,
    spec.packed_10F_11F_11F_rule, spec.exact_integer_type, spec.float_type in H;
  repeat first
    [ rewrite Bool.andb_true_iff in H
    | rewrite Bool.orb_true_iff in H
    | rewrite Bool.implb_true_iff in H
    | rewrite Z.eqb_eq in H
    | rewrite Z.leb_le in H ];
  unfold GL_BGRA, GL_BYTE, GL_UNSIGNED_BYTE, GL_SHORT, GL_UNSIGNED_SHORT, GL_INT,
    GL_UNSIGNED_INT, GL_HALF_FLOAT, GL_FLOAT, GL_DOUBLE, GL_FIXED,
    GL_INT_2_10_10_10_REV, GL_UNSIGNED_INT_2_10_10_10_REV,
    GL_UNSIGNED_INT_10F_11F_11F_REV, GL_FALSE, GL_TRUE in *.

(** X15.  The integer and the double registration in closed form:
    [addAttributeIPointer] returns exactly when the component count is
    1 to 4, the stride is not negative and the type is one of the six
    integer types; [addAttributeLPointer] returns exactly when the
    component count is 1 to 4 and the stride is not negative.  Neither
    ever accepts [GL_BGRA]. *)
Theorem integer_and_double_registration {T} (o : VertexBufferImpl T) (g : GL.state)
    (name : string) (size type stride offset : Z) :
  (fst (addAttributeIPointer name size type stride offset (o, g)) = Return tt
   <-> 1 <= size <= 4 /\ 0 <= stride
       /\ (type = GL_BYTE \/ type = GL_UNSIGNED_BYTE \/ type = GL_SHORT
           \/ type = GL_UNSIGNED_SHORT \/ type = GL_INT \/ type = GL_UNSIGNED_INT))
  /\ (fst (addAttributeLPointer name size stride offset (o, g)) = Return tt
      <-> 1 <= size <= 4 /\ 0 <= stride).
Proof.
  split.
  - rewrite addAttributeIPointer_run.
    destruct (spec.integer_rules size type stride) eqn:Hrules; cbn [fst].
    + rules_to_Prop Hrules. split; [intros _; lia|done].
    + apply Bool.not_true_iff_false in Hrules. rules_to_Prop Hrules.
      split; [done|]. intros H. destruct Hrules. lia.
  - rewrite addAttributeLPointer_run.
    destruct (spec.double_rules size GL_DOUBLE stride) eqn:Hrules; cbn [fst].
    + rules_to_Prop Hrules. split; [intros _; lia|done].
    + apply Bool.not_true_iff_false in Hrules. rules_to_Prop Hrules.
      split; [done|]. intros H. destruct Hrules. lia.
Qed.

Lemma integer_and_double_registration_witness :
  fst (addAttributeIPointer "bone" 4 GL_UNSIGNED_BYTE 4 0
         (examples.manager [], examples.studio)) = Return tt
  /\ fst (addAttributeLPointer "position" 3 24 0
            (examples.manager [], examples.studio)) = Return tt.
Proof.
  split.
  - apply (proj1 (integer_and_double_registration (examples.manager []) examples.studio
                    "bone" 4 GL_UNSIGNED_BYTE 4 0)).
    unfold GL_UNSIGNED_BYTE, GL_BYTE. lia.
  - apply (proj2 (integer_and_double_registration (examples.manager []) examples.studio
                    "position" 3 0 24 0)).
    lia.
Defined.

(** X16.  The float registration with [GL_BGRA] as component count in
    closed form: [addAttributePointer] returns exactly when the type is
    [GL_UNSIGNED_BYTE], [GL_INT_2_10_10_10_REV] or
    [GL_UNSIGNED_INT_2_10_10_10_REV], [normalized] is [GL_TRUE] (another
    non-zero value does not count) and the stride is not negative.  With
    a component count of 1 to 4 and one of the ten unpacked types it
    returns for every [normalized], given a stride that is not
    negative. *)
Theorem float_registration {T} (o : VertexBufferImpl T) (g : GL.state)
    (name : string) (size type normalized stride offset : Z) :
  (fst (addAttributePointer name GL_BGRA type normalized stride offset (o, g)) = Return tt
   <-> (type = GL_UNSIGNED_BYTE \/ type = GL_INT_2_10_10_10_REV
        \/ type = GL_UNSIGNED_INT_2_10_10_10_REV)
       /\ normalized = GL_TRUE /\ 0 <= stride)
  /\ (1 <= size <= 4 ->
      0 <= stride ->
      type = GL_BYTE \/ type = GL_UNSIGNED_BYTE \/ type = GL_SHORT
      \/ type = GL_UNSIGNED_SHORT \/ type = GL_INT \/ type = GL_UNSIGNED_INT
      \/ type = GL_HALF_FLOAT \/ type = GL_FLOAT \/ type = GL_DOUBLE \/ type = GL_FIXED ->
      fst (addAttributePointer name size type normalized stride offset (o, g)) = Return tt).
Proof.
  split.
  - rewrite addAttributePointer_run.
    destruct (spec.float_rules_with_type GL_BGRA type normalized stride) eqn:Hrules;
      cbn [fst].
    + rules_to_Prop Hrules. split; [intros _; lia|done].
    + apply Bool.not_true_iff_false in Hrules. rules_to_Prop Hrules.
      split; [done|]. intros H. destruct Hrules. lia.
  - intros Hsize Hstride Htype. rewrite addAttributePointer_run.
    destruct (spec.float_rules_with_type size type normalized stride) eqn:Hrules;
      cbn [fst]; [done|].
    apply Bool.not_true_iff_false in Hrules. rules_to_Prop Hrules.
    destruct Hrules. lia.
Qed.

Lemma float_registration_witness :
  fst (addAttributePointer "colour" GL_BGRA GL_UNSIGNED_BYTE GL_TRUE 4 0
         (examples.manager [], examples.studio)) = Return tt
  /\ fst (addAttributePointer "position" 3 GL_FLOAT 2 12 0
            (examples.manager [], examples.studio)) = Return tt.
Proof.
  split.
  - apply (proj1 (float_registration (examples.manager []) examples.studio
                    "colour" 0 GL_UNSIGNED_BYTE GL_TRUE 4 0)).
    unfold GL_UNSIGNED_BYTE, GL_TRUE. lia.
  - apply (proj2 (float_registration (examples.manager []) examples.studio
                    "position" 3 GL_FLOAT 2 12 0)).
    + lia.
    + lia.
    + unfold GL_FLOAT, GL_BYTE. lia.
Defined.

(** *** The polygon count *)

(** X17.  [vertexCount] counts whole polygons, not vertices: for a
    polygon type the class accepts (triangles, quads) the polygon size
    [k] is 3 or 4 and the count [n] of a manager satisfies
    [k * n <= data.size() < k * (n + 1)].  After a [setVertexData] that
    returns, it is the count of the new sequence; after one that throws
    it is the count from before. *)
Theorem vertexCount_counts_polygons {T} (sizeofT Usage PolyType : Z)
    (o : VertexBufferImpl T) (d : list T) (g : GL.state) :
  polygons.PolyType_allowed PolyType = true ->
  exists k,
    polygons.PolySize PolyType = Some k
    /\ (k = 3 \/ k = 4)
    /\ (exists n, polygons.vertexCount PolyType o = Some n
                  /\ k * n <= Z.of_nat (length (data o)) < k * (n + 1))
    /\ (fst (setVertexData sizeofT Usage d (o, g)) = Return tt ->
        polygons.vertexCount PolyType (fst (snd (setVertexData sizeofT Usage d (o, g))))
        = Some (Z.of_nat (length d) / k))
    /\ (fst (setVertexData sizeofT Usage d (o, g)) <> Return tt ->
        polygons.vertexCount PolyType (fst (snd (setVertexData sizeofT Usage d (o, g))))
        = polygons.vertexCount PolyType o).
Proof.
  intros Hallowed. unfold polygons.vertexCount. rewrite Hallowed.
  assert (exists k, polygons.PolySize PolyType = Some k /\ (k = 3 \/ k = 4)) as (k & Hk & Hk34).
  { unfold polygons.PolyType_allowed in Hallowed.
    apply Bool.orb_true_iff in Hallowed as [->%Z.eqb_eq | ->%Z.eqb_eq];
      [exists 3|exists 4]; split; auto. }
  exists k. rewrite Hk. split; [done|]. split; [done|]. split; [|split].
  - eexists. split; [reflexivity|].
    pose proof (Z.mul_div_le (Z.of_nat (length (data o))) k).
    pose proof (Z.mul_succ_div_gt (Z.of_nat (length (data o))) k).
    lia.
  - rewrite setVertexData_unfold. destruct (handle o =? _); [discriminate|].
    rewrite rebuffer_run. destruct (upload_reports_oom g); [discriminate|]. done.
  - rewrite setVertexData_unfold. destruct (handle o =? _); [done|].
    rewrite rebuffer_run. destruct (upload_reports_oom g); done.
Qed.

Lemma vertexCount_counts_polygons_witness :
  polygons.vertexCount GL_TRIANGLES (examples.manager []) = Some 2
  /\ polygons.vertexCount GL_TRIANGLES
       (fst (snd (setVertexData 4 GL_STATIC_DRAW [1; 2; 3; 4; 5; 6; 7; 8; 9; 10]
                    (examples.manager [], examples.studio))))
     = Some 3.
Proof.
  destruct (vertexCount_counts_polygons 4 GL_STATIC_DRAW GL_TRIANGLES
              (examples.manager []) [1; 2; 3; 4; 5; 6; 7; 8; 9; 10] examples.studio
              eq_refl) as (k & Hk & _ & _ & Hok & _).
  injection Hk as <-. split; [reflexivity|].
  rewrite Hok; reflexivity.
Defined.

(** *** Invariants of the live managers *)

Section Invariants.

Import lifecycle.

Context {T : Type} (sizeofT : Z) (Usage : Z).
Implicit Types (o : VertexBufferImpl T) (g : GL.state) (w : world (T:=T)).

(** What a member function does to the descriptor list: nothing, or it
    empties it, or it appends one descriptor that passed its checks. *)
Lemma run_attributes c o g :
  let o' := fst (snd (run sizeofT Usage c (o, g))) in
  attributes o' = attributes o
  \/ attributes o' = []
  \/ exists a, layout.checked a = true /\ attributes o' = attributes o ++ [a].
Proof.
  destruct c as [d|n s t nm st off|n s t st off|n s st off| | |]; cbn [run].
  - left. rewrite setVertexData_unfold. destruct (handle o =? _); [done|].
    rewrite rebuffer_run. destruct (upload_reports_oom g); done.
  - rewrite addAttributePointer_run.
    destruct (spec.float_rules_with_type s t nm st) eqn:Hrules; [|by left].
    right. right. eexists. split; [|reflexivity]. exact Hrules.
  - rewrite addAttributeIPointer_run.
    destruct (spec.integer_rules s t st) eqn:Hrules; [|by left].
    right. right. eexists. split; [|reflexivity]. cbn. by rewrite Hrules.
  - rewrite addAttributeLPointer_run.
    destruct (spec.double_rules s GL_DOUBLE st) eqn:Hrules; [|by left].
    right. right. eexists. split; [|reflexivity]. cbn. by rewrite Hrules.
  - left. destruct (bind (o, g)) as [r [o' g']] eqn:Hrun.
    by apply bind_frame in Hrun as [-> _].
  - left. destruct (unbind (o, g)) as [r [o' g']] eqn:Hrun.
    by apply unbind_frame in Hrun as [-> _].
  - right. by left.
Qed.

Lemma step_keeps_descriptors w w' :
  step sizeofT Usage w w' ->
  (forall i o a, live w !! i = Some o -> a ∈ attributes o -> layout.checked a = true) ->
  (forall i o a, live w' !! i = Some o -> a ∈ attributes o -> layout.checked a = true).
Proof.
  intros Hstep Hinv.
  destruct Hstep as [w k d r g' Hk Hctor | w i k rhs Hi Hk
                    | w i o c r o' g' Hi Hrun | w i o r g' Hi Hdtor | w g' Hmono];
    intros j oj a; cbn [live].
  - destruct (ctor_effect sizeofT Usage d (ctx w)) as (_ & Hr).
    rewrite Hctor in Hr. cbn [fst] in Hr.
    destruct Hr as [-> | ->]; cbn [constructed]; [apply (Hinv j oj a)|].
    destruct (decide (j = k)) as [->|Hjk].
    + rewrite lookup_insert_eq. intros [= <-]. cbn [attributes].
      by intros ?%elem_of_nil.
    + rewrite lookup_insert_ne by done. apply (Hinv j oj a).
  - cbn [VertexBufferImpl_move fst snd].
    destruct (decide (j = k)) as [->|Hjk].
    + rewrite lookup_insert_eq. intros [= <-]. cbn [attributes]. by apply (Hinv i).
    + rewrite lookup_insert_ne by done.
      destruct (decide (j = i)) as [->|Hji].
      * rewrite lookup_insert_eq. intros [= <-]. cbn [attributes].
        by intros ?%elem_of_nil.
      * rewrite lookup_insert_ne by done. apply (Hinv j oj a).
  - destruct (decide (j = i)) as [->|Hji].
    + rewrite lookup_insert_eq. intros [= <-].
      pose proof (run_attributes c o (ctx w)) as Ha. rewrite Hrun in Ha.
      cbn [fst snd] in Ha. destruct Ha as [-> | [-> | (b & Hb & ->)]].
      * by apply (Hinv i).
      * by intros ?%elem_of_nil.
      * intros [Hin | ->%list_elem_of_singleton]%elem_of_app; [by apply (Hinv i o)|done].
    + rewrite lookup_insert_ne by done. apply (Hinv j oj a).
  - intros [_ Hj]%lookup_delete_Some. by apply (Hinv j oj a).
  - apply (Hinv j oj a).
Qed.

Lemma reachable_descriptors g0 w :
  reachable sizeofT Usage g0 w ->
  forall i o a, live w !! i = Some o -> a ∈ attributes o -> layout.checked a = true.
Proof.
  unfold reachable. revert w.
  apply (rtc_ind_r (fun w => forall i o a,
                      live w !! i = Some o -> a ∈ attributes o -> layout.checked a = true)).
  - intros i o a Hi. cbn [live] in Hi. by rewrite lookup_empty in Hi.
  - intros y z _ Hstep IH. by apply (step_keeps_descriptors y z).
Qed.

End Invariants.

(** X18.  Only checked descriptors are ever registered: in every world
    a program reaches from a context without managers, every descriptor
    of every live manager satisfies the checks of the constructor of its
    family (for the float family the shared rules and the accepted
    types, for the integer family the shared rules with normalized false
    and the six integer types, for the double family the shared rules
    with normalized false and [GL_DOUBLE]). *)
Theorem registered_descriptors_are_checked {T} (sizeofT Usage : Z)
    (g0 : GL.state) (w : lifecycle.world (T:=T))
    (i : nat) (o : VertexBufferImpl T) (a : Attribute) :
  lifecycle.reachable sizeofT Usage g0 w ->
  lifecycle.live w !! i = Some o ->
  a ∈ attributes o ->
  layout.checked a = true.
Proof. intros Hw. by apply (reachable_descriptors sizeofT Usage g0 w Hw). Qed.

(** X19.  No live manager holds a released buffer: in every world a
    program reaches from a context without managers, the handle of a
    live manager is 0 (a moved-from manager) or names a buffer that is
    allocated in the context. *)
Theorem live_handles_are_allocated {T} (sizeofT Usage : Z)
    (g0 : GL.state) (w : lifecycle.world (T:=T))
    (i : nat) (o : VertexBufferImpl T) :
  lifecycle.reachable sizeofT Usage g0 w ->
  lifecycle.live w !! i = Some o ->
  handle o = 0 \/ is_Some (buffers (lifecycle.ctx w) !! handle o).
Proof.
  intros Hw Hi.
  destruct (reachable_ownership sizeofT Usage g0 w Hw) as [_ Halloc].
  by apply (Halloc i o).
Qed.

Lemma built_reachable :
  lifecycle.reachable 4 GL_STATIC_DRAW examples.blank examples.built.
Proof.
  apply rtc_once.
  apply (lifecycle.step_construct 4 GL_STATIC_DRAW examples.start 0%nat examples.six);
    [reflexivity | apply surjective_pairing].
Qed.

Lemma described_reachable :
  lifecycle.reachable 4 GL_STATIC_DRAW examples.blank examples.described.
Proof.
  eapply rtc_r; [apply built_reachable|].
  apply (lifecycle.step_call 4 GL_STATIC_DRAW examples.built 0%nat (examples.manager [])
           (lifecycle.CallAddAttributePointer "position" 3 GL_FLOAT GL_FALSE 12 0)
           (Return tt)); reflexivity.
Qed.

Lemma moved_reachable :
  lifecycle.reachable 4 GL_STATIC_DRAW examples.blank examples.moved.
Proof.
  eapply rtc_r; [apply built_reachable|].
  apply (lifecycle.step_move 4 GL_STATIC_DRAW examples.built 0%nat 1%nat
           (examples.manager [])); reflexivity.
Qed.

Lemma registered_descriptors_are_checked_witness :
  layout.checked examples.position = true.
Proof.
  apply (registered_descriptors_are_checked 4 GL_STATIC_DRAW examples.blank
           examples.described 0%nat (examples.manager [examples.position])
           examples.position).
  - apply described_reachable.
  - reflexivity.
  - apply list_elem_of_singleton. reflexivity.
Defined.

Lemma live_handles_are_allocated_witness :
  handle (examples.manager []) = 0
  \/ is_Some (buffers (lifecycle.ctx examples.moved) !! handle (examples.manager [])).
Proof.
  apply (live_handles_are_allocated 4 GL_STATIC_DRAW examples.blank examples.moved
           1%nat (examples.manager [])).
  - apply moved_reachable.
  - reflexivity.
Defined.

(** *** What bind and unbind leave alone *)

Section Frame.

Context {T : Type}.
Implicit Types (o : VertexBufferImpl T) (g : GL.state).

(** The parts of the context that [bind] and [unbind] have no call for. *)
Local Abbreviation kept g := (buffers g, current_program g, attribs g).

Lemma Attribute_bind_result a p g r g' :
  Attribute_bind a p g = (r, g') -> kept g' = kept g.
Proof.
  unfold Attribute_bind, getAttribLocation, mbind, dynamic_assert,
    glGetAttribLocation, gets.
  destruct (negb (p =? 0)); [|by intros [= _ <-]]. unfold ret at 1. cbn beta iota.
  destruct (default (-1) (attribs g !! (p, name (base a))) =? -1);
    [by intros [= _ <-]|].
  unfold ret at 1. cbn beta iota.
  destruct (default (-1) (attribs g !! (p, name (base a))) <? GL_MAX_VERTEX_ATTRIBS);
    [|by intros [= _ <-]].
  unfold ret at 1, glEnableVertexAttribArray, modify. cbn beta iota.
  rewrite postBind_run. intros [= _ <-].
  destruct (layout.faults _ a); [|reflexivity].
  destruct (record_error_keeps GL_INVALID_OPERATION
              (set_enabled
                 (fun e => {[default (-1) (attribs g !! (p, name (base a)))]} ∪ e) g))
    as (-> & _ & -> & -> & _).
  reflexivity.
Qed.

Lemma Attribute_bind_kept a p g : kept (snd (Attribute_bind a p g)) = kept g.
Proof.
  destruct (Attribute_bind a p g) as [r g'] eqn:Hrun.
  by apply Attribute_bind_result in Hrun.
Qed.

Lemma Attribute_unbind_shape a g r g' :
  Attribute_unbind a g = (r, g') ->
  g' = g \/ exists loc, g' = set_enabled (fun e => e ∖ {[loc]}) g.
Proof.
  unfold Attribute_unbind, mbind at 1. rewrite glGetIntegerv_program.
  unfold getAttribLocation, mbind, dynamic_assert, glGetAttribLocation, gets.
  destruct (negb (_ =? 0)); [|intros [= _ <-]; by left]. unfold ret at 1. cbn beta iota.
  destruct (_ =? -1); [intros [= _ <-]; by left|].
  intros [= _ <-]. right. eexists. reflexivity.
Qed.

Lemma Attribute_unbind_kept a g : kept (snd (Attribute_unbind a g)) = kept g.
Proof.
  destruct (Attribute_unbind a g) as [r g'] eqn:Hrun.
  apply Attribute_unbind_shape in Hrun as [-> | (loc & ->)]; reflexivity.
Qed.

Lemma for_each_kept (f : Attribute -> M GL.state unit) (l : list Attribute) o g r o' g' :
  (forall a g1, kept (snd (f a g1)) = kept g1) ->
  for_each (fun ptr => gl (T:=T) (f ptr)) l (o, g) = (r, (o', g')) ->
  o' = o /\ kept g' = kept g.
Proof.
  intros Hf. revert g. induction l as [|a l IH]; intros g Hrun.
  - by inversion Hrun.
  - cbn [for_each] in Hrun. unfold mbind at 1, gl at 1 in Hrun. cbn [fst snd] in Hrun.
    pose proof (Hf a g) as Ha.
    destruct (f a g) as [[[]|e] g1]; cbn [snd] in Ha.
    + rewrite <- Ha. by apply IH.
    + by inversion Hrun; subst.
Qed.

Lemma bind_kept o g r o' g' :
  bind (o, g) = (r, (o', g')) -> o' = o /\ kept g' = kept g.
Proof.
  rewrite bind_unfold. destruct (_ =? 0).
  - by inversion 1.
  - intros Hrun. apply for_each_kept in Hrun; [done|].
    intros a g1. apply Attribute_bind_kept.
Qed.

Lemma unbind_kept o g r o' g' :
  unbind (o, g) = (r, (o', g')) -> o' = o /\ kept g' = kept g.
Proof.
  unfold unbind, mbind at 1, gl at 1. cbn [fst snd]. rewrite glBindBuffer_array.
  unfold mbind at 1, this at 1, gets. cbn [fst snd].
  intros Hrun. apply for_each_kept in Hrun; [done|].
  intros a g1. apply Attribute_unbind_kept.
Qed.

End Frame.

(** X20.  Whatever their outcome, in every context, [bind] and [unbind]
    leave the manager as it is (handle, data, descriptors) and never
    create, fill or delete a buffer, and never change the current
    program or the attribute table. *)
Theorem bind_and_unbind_frame {T} (o : VertexBufferImpl T) (g : GL.state) :
  (fst (snd (bind (o, g))) = o
   /\ buffers (snd (snd (bind (o, g)))) = buffers g
   /\ current_program (snd (snd (bind (o, g)))) = current_program g
   /\ attribs (snd (snd (bind (o, g)))) = attribs g)
  /\ (fst (snd (unbind (o, g))) = o
      /\ buffers (snd (snd (unbind (o, g)))) = buffers g
      /\ current_program (snd (snd (unbind (o, g)))) = current_program g
      /\ attribs (snd (snd (unbind (o, g)))) = attribs g).
Proof.
  destruct (bind (o, g)) as [rb [ob gb]] eqn:Hb.
  destruct (unbind (o, g)) as [ru [ou gu]] eqn:Hu.
  apply bind_kept in Hb as [-> Hbk]. apply unbind_kept in Hu as [-> Huk].
  injection Hbk as ? ? ?. injection Huk as ? ? ?. done.
Qed.

(** *** Bind without a buffer *)

Section Unbacked.

Import layout.



End Unbacked.


